(** * The auto-trader edge function: trade execution and TP/SL monitoring

    A shallow embedding of [executeTrade], [placeTPSLOrders] and
    [checkTakeProfitStopLoss] of the auto-trader function, with the
    properties of the trade executor and the position monitor proved
    about it.

    JavaScript numbers are IEEE 754 binary64 values: they are modelled
    by Rocq's primitive floats, whose operations are the same ones.
    Nullable columns and optional fields are [option]s; the truthiness
    tests of the source ([!x], [x || y], [x && y]) are written out. *)

From Stdlib Require Import ZArith String Ascii List Bool Lia.
From Stdlib Require Import Numbers.DecimalString.
From Stdlib Require Import Floats.PrimFloat.
Import ListNotations.

Set Warnings "-inexact-float".
Local Open Scope string_scope.
Local Open Scope Z_scope.

(* ------------------------------------------------------------------ *)
(** ** JavaScript values *)

Module Js.

(** [ToBoolean] of a number: [0], [-0] and [NaN] are falsy. *)
Definition truthy_number (x : float) : bool :=
  negb (PrimFloat.is_zero x || PrimFloat.is_nan x).

(** An optional or nullable number: [undefined] and [null] are falsy. *)
Definition truthy_num (x : option float) : bool :=
  match x with
  | Some v => truthy_number v
  | None => false
  end.

(** A nullable boolean column. *)
Definition truthy_bool (x : option bool) : bool :=
  match x with
  | Some b => b
  | None => false
  end.

(** A nullable string: [null] and the empty string are falsy. *)
Definition truthy_string (s : string) : bool :=
  negb (String.eqb s "").

Definition truthy_str (x : option string) : bool :=
  match x with
  | Some s => truthy_string s
  | None => false
  end.

(** [a || b] on numbers: [a] when it is truthy, else [b]. *)
Definition or_num (a b : option float) : option float :=
  if truthy_num a then a else b.

(** [ToNumber] of a number or [null]: [null] converts to [+0]. *)
Definition ToNumber (x : option float) : float :=
  match x with
  | Some v => v
  | None => PrimFloat.zero
  end.

(** [ToNumber] of a nullable integer column. *)
Definition ToInteger (x : option Z) : Z :=
  match x with
  | Some v => v
  | None => 0
  end.

(** The relational operators on numbers; every comparison with [NaN]
    is false. *)
Definition le (x y : float) : bool := PrimFloat.leb x y.
Definition ge (x y : float) : bool := PrimFloat.leb y x.
Definition gt (x y : float) : bool := PrimFloat.ltb y x.

(** Integers print in decimal ([Date.now()], HTTP status, order id). *)
Definition string_of_Z (z : Z) : string :=
  NilZero.string_of_int (Z.to_int z).

(** [String.prototype.toLowerCase] on the ASCII letters. *)
Definition lower_ascii (c : ascii) : ascii :=
  let n := nat_of_ascii c in
  if (Nat.leb 65 n && Nat.leb n 90)%bool then ascii_of_nat (n + 32) else c.

Fixpoint toLowerCase (s : string) : string :=
  match s with
  | EmptyString => EmptyString
  | String c r => String (lower_ascii c) (toLowerCase r)
  end.

(** [s.startsWith(p)]. *)
Fixpoint startsWith (p s : string) : bool :=
  match p with
  | EmptyString => true
  | String a p' =>
      match s with
      | EmptyString => false
      | String b s' => Ascii.eqb a b && startsWith p' s'
      end
  end.

(** Thrown values: [new Error(msg)] of the source, and the errors the
    runtime raises itself. *)
Inductive Exception : Type :=
| Error (message : string)
| TypeError (message : string)
| SyntaxError (message : string).

Definition message (e : Exception) : string :=
  match e with
  | Error m | TypeError m | SyntaxError m => m
  end.

End Js.

(* ------------------------------------------------------------------ *)
(** ** Data model *)

Inductive Side : Type := BUY | SELL.
Inductive OrderType : Type := MARKET | LIMIT.
Inductive TimeInForce : Type := GTC | IOC | FOK.

Definition Side_str (s : Side) : string :=
  match s with BUY => "BUY" | SELL => "SELL" end.

Definition OrderType_str (t : OrderType) : string :=
  match t with MARKET => "MARKET" | LIMIT => "LIMIT" end.

Definition TimeInForce_str (t : TimeInForce) : string :=
  match t with GTC => "GTC" | IOC => "IOC" | FOK => "FOK" end.

Definition OrderType_eqb (a b : OrderType) : bool :=
  match a, b with
  | MARKET, MARKET | LIMIT, LIMIT => true
  | _, _ => false
  end.

(** [interface TradeSignal]. *)
Module TradeSignal.
Record t : Type := mk {
  symbol : string;
  side : Side;
  quantity : float;
  price : option float;
  type : OrderType;
  timeInForce : option TimeInForce;
  userId : string;
  botId : option string;
  stopLossPercent : option float;
  takeProfitPercent : option float
}.
End TradeSignal.

(** One entry of [BinanceOrderResponse.fills]. *)
Module Fill.
Record t : Type := mk {
  price : string;
  qty : string;
  commission : string;
  commissionAsset : string
}.
End Fill.

(** [interface BinanceOrderResponse]; [fills] may be missing from the
    response, which the source tests for. *)
Module BinanceOrder.
Record t : Type := mk {
  symbol : string;
  orderId : Z;
  orderListId : Z;
  clientOrderId : string;
  transactTime : Z;
  price : string;
  origQty : string;
  executedQty : string;
  cummulativeQuoteQty : string;
  status : string;
  timeInForce : string;
  type : string;
  side : string;
  fills : option (list Fill.t)
}.
End BinanceOrder.

(** A row of [user_settings]; every column but [user_id] is nullable. *)
Module UserSettings.
Record t : Type := mk {
  user_id : string;
  binance_api_key : option string;
  binance_secret_key : option string;
  auto_trading_enabled : option bool;
  auto_tp_sl_enabled : option bool;
  default_stop_loss_percent : option float;
  default_take_profit_percent : option float;
  max_daily_trades : option Z;
  max_position_size : option float
}.
End UserSettings.

(** The [orderData] object that [executeTrade] inserts into [orders]. *)
Module Order.
Record t : Type := mk {
  user_id : string;
  bot_id : option string;
  symbol : string;
  side : string;
  type : string;
  quantity : float;
  price : option float;
  filled_quantity : float;
  avg_fill_price : option float;
  status : string;
  order_id : string;
  time_in_force : string;
  commission : float;
  executed_at : option Z;
  stop_loss_price : option float;
  take_profit_price : option float;
  auto_tp_sl_enabled : option bool
}.
End Order.

(** A stored row of [orders]: the inserted object with the columns the
    database fills in.  Instants are milliseconds since the epoch, the
    resolution of [Date]. *)
Record LedgerRow : Type := mkRow {
  id : string;
  created_at : Z;
  row : Order.t
}.

(** What a query of the database client resolves to: [{ data, error }]. *)
Record QueryResult (A : Type) : Type := mkQuery {
  data : option A;
  error : option string
}.
Arguments mkQuery {A} _ _.
Arguments data {A} _.
Arguments error {A} _.

(** The response of the order endpoint: status, body text, and the body
    parsed as JSON ([None] when it does not parse). *)
Record OrderResponse : Type := mkResponse {
  status : Z;
  text : string;
  json : option BinanceOrder.t
}.

(** [Response.ok]: the status is in the range 200-299. *)
Definition ok (r : OrderResponse) : bool :=
  (200 <=? status r) && (status r <=? 299).

(** A request sent with [fetch]. *)
Record ExchangeCall : Type := mkCall {
  method : string;
  url : string;
  api_key : option string;
  body : option string
}.

Definition order_url : string := "https://api.binance.com/api/v3/order".
Definition ticker_url (symbol : string) : string :=
  "https://api.binance.com/api/v3/ticker/price?symbol=" ++ symbol.

(** A call that places an order (as opposed to a public price read). *)
Definition is_order_post (c : ExchangeCall) : bool :=
  String.eqb (method c) "POST" && String.eqb (url c) order_url.

(** The body of the response [executeTrade] returns. *)
Record TradeResponse : Type := mkTradeResponse {
  success : bool;
  order : option LedgerRow;
  binanceOrder : BinanceOrder.t;
  tpSlEnabled : option bool;
  stopLossPrice : option float;
  takeProfitPrice : option float
}.

(** One element of [results] in [checkTakeProfitStopLoss]. *)
Inductive ResultEntry : Type :=
| Closed (position : string) (triggerType : string) (currentPrice : float)
         (closeResult : TradeResponse)
| Failed (position : string) (error_message : string).

Inductive CheckResponse : Type :=
| Message (message : string)
| Results (results : list ResultEntry).

(* ------------------------------------------------------------------ *)
(** ** The environment of one invocation *)

(** What the collaborators answer.  The clock is read once per
    invocation: every [Date.now()] and [new Date()] of a run sees [now]. *)
Record World : Type := mkWorld {
  now : Z;
  select_user_settings : string -> QueryResult UserSettings.t;
  today_trades_error : option string;
  positions_error : option string;
  insert_error : Order.t -> option string;
  new_id : list LedgerRow -> string;
  post_order : ExchangeCall -> option OrderResponse;
  get_ticker : string -> option (option string)
}.

(** What an invocation changes or leaves behind: the [orders] table, the
    requests sent to the exchange (oldest first), and the console. *)
Record State : Type := mkState {
  ledger : list LedgerRow;
  exchange_calls : list ExchangeCall;
  console : list string
}.

(* ------------------------------------------------------------------ *)
(** ** A state and exception monad for the async functions *)

Inductive Outcome (A : Type) : Type :=
| Return (a : A)
| Throw (e : Js.Exception).
Arguments Return {A} _.
Arguments Throw {A} _.

Definition M (A : Type) : Type := State -> Outcome A * State.

Definition ret {A} (a : A) : M A := fun st => (Return a, st).

Definition bind {A B} (m : M A) (k : A -> M B) : M B :=
  fun st =>
    match m st with
    | (Return a, st') => k a st'
    | (Throw e, st') => (Throw e, st')
    end.

Definition throw {A} (e : Js.Exception) : M A := fun st => (Throw e, st).

(** [try { m } catch (error) { h error }]. *)
Definition try_catch {A} (m : M A) (h : Js.Exception -> M A) : M A :=
  fun st =>
    match m st with
    | (Return a, st') => (Return a, st')
    | (Throw e, st') => h e st'
    end.

Declare Scope js_scope.
Delimit Scope js_scope with js.
Notation "x <- m ;; k" := (bind m (fun x => k))
  (at level 61, m at next level, right associativity) : js_scope.
Notation "m ;; k" := (bind m (fun _ => k))
  (at level 61, right associativity) : js_scope.
Local Open Scope js_scope.

Definition console_log (what : string) : M unit :=
  fun st => (Return tt, mkState (ledger st) (exchange_calls st) (console st ++ [what])).

Definition console_error (what : string) : M unit := console_log what.

Definition record_call (c : ExchangeCall) : M unit :=
  fun st => (Return tt, mkState (ledger st) (exchange_calls st ++ [c]) (console st)).

(** An assignment to a [const] binding: the runtime raises a TypeError
    instead of storing the value (module code is strict). *)
Definition assign_const {A} (name : string) (value : A) : M A :=
  throw (Js.TypeError "Assignment to constant variable.").

(* ------------------------------------------------------------------ *)
(** ** Calendar days, as the daily-limit query sees them *)

Definition ms_per_day : Z := 86400000.

(** [new Date().toISOString().split('T')[0]]: the UTC calendar day of an
    instant, as the number of days since the epoch. *)
Definition utc_day (t : Z) : Z := t / ms_per_day.

(** The instant the literal [`${today}T00:00:00.000Z`] denotes. *)
Definition T00_00_00_000Z (today : Z) : Z := today * ms_per_day.

(** The instant the literal [`${today}T23:59:59.999Z`] denotes. *)
Definition T23_59_59_999Z (today : Z) : Z :=
  today * ms_per_day + (23 * 3600000 + 59 * 60000 + 59 * 1000 + 999).

(** The rows the daily-limit query selects:
    [.eq('user_id', u).gte('created_at', lo).lt('created_at', hi)]. *)
Definition today_filter (userId : string) (lo hi : Z) (r : LedgerRow) : bool :=
  String.eqb (Order.user_id (row r)) userId
  && (lo <=? created_at r) && (created_at r <? hi).

(** The rows the position query selects. *)
Definition position_filter (userId : string) (r : LedgerRow) : bool :=
  String.eqb (Order.user_id (row r)) userId
  && String.eqb (Order.status (row r)) "filled"
  && match Order.auto_tp_sl_enabled (row r) with Some true => true | _ => false end
  && match Order.stop_loss_price (row r) with Some _ => true | None => false end
  && match Order.take_profit_price (row r) with Some _ => true | None => false end.

Definition isSome {A} (x : option A) : bool :=
  match x with Some _ => true | None => false end.

(* ------------------------------------------------------------------ *)
(** ** The error taxonomy *)

(** The kinds of failure the design distinguishes.  The source raises
    plain [Error]s, so the kind is read off the message: [error_kind]
    gives the message of each [throw] of [executeTrade] the kind the
    design assigns to its cause. *)
Inductive ErrorKind : Type :=
| ConfigurationError
| LimitExceededError
| ExchangeError
| PersistenceError.

Definition error_kind (e : Js.Exception) : option ErrorKind :=
  match e with
  | Js.Error m =>
      if String.eqb m "User settings not found"
         || String.eqb m "Auto trading is disabled for this user"
         || String.eqb m "Binance API credentials not configured"
      then Some ConfigurationError
      else if String.eqb m "Daily trade limit reached"
              || String.eqb m "Trade size exceeds maximum position size"
      then Some LimitExceededError
      else if Js.startsWith "Binance API error: " m
      then Some ExchangeError
      else if String.eqb m "Failed to save order to database"
      then Some PersistenceError
      else None
  | _ => None
  end.

(* ------------------------------------------------------------------ *)
(** ** The account endpoint and the entry point *)

(** The response of the account endpoint: status, and the body parsed as
    JSON, kept as the text it is passed on as ([None] when it does not
    parse). *)
Record AccountResponse : Type := mkAccountResponse {
  account_status : Z;
  account_json : option string
}.

Definition account_ok (r : AccountResponse) : bool :=
  (200 <=? account_status r) && (account_status r <=? 299).

Definition account_url (query : string) : string :=
  "https://api.binance.com/api/v3/account?" ++ query.

(** A signed read of the account (as opposed to an order or a ticker
    read). *)
Definition is_account_get (c : ExchangeCall) : bool :=
  String.eqb (method c) "GET"
  && Js.startsWith "https://api.binance.com/api/v3/account?" (url c).

(** The two environment variables the entry point reads. *)
Record Env : Type := mkEnv {
  SUPABASE_URL : option string;
  SUPABASE_SERVICE_ROLE_KEY : option string
}.

(** The body of a request, [{ action, ...payload }]: the action and the
    rest, typed as the source casts it. *)
Record Body : Type := mkBody {
  action : option string;
  payload : TradeSignal.t
}.

(** A request to the function: its method and its body parsed as JSON
    ([None] when it does not parse). *)
Record Request : Type := mkRequest {
  request_method : string;
  request_json : option Body
}.

(** The JSON body of a response of the function. *)
Inductive ReplyBody : Type :=
| NoBody
| ErrorBody (error_message : string)
| TradeBody (result : TradeResponse)
| CheckBody (result : CheckResponse)
| AccountBody (accountData : string).

(** A response of the function: [new Response(body, { status })], the
    status being 200 unless given. *)
Record Reply : Type := mkReply {
  reply_status : Z;
  reply_body : ReplyBody
}.

(* ------------------------------------------------------------------ *)
(** ** Sample data for the concrete runs *)

Module Sample.

(** Stand-ins for the built-ins, defined on the strings and numbers
    the sample runs use. *)
Definition parseFloat (s : string) : float :=
  if String.eqb s "100" then 100%float
  else if String.eqb s "0.001" then 0.001%float
  else if String.eqb s "0" then 0%float
  else PrimFloat.nan.

Definition Number_toString (x : float) : string :=
  if PrimFloat.eqb x 100 then "100"
  else if PrimFloat.eqb x 0.001 then "0.001"
  else if PrimFloat.eqb x 0 then "0"
  else if PrimFloat.eqb x 95 then "95"
  else if PrimFloat.eqb x 110.00000000000001 then "110.00000000000001"
  else "NaN".

Definition hmac_sha256_hex (key msg : string) : string :=
  "hmac(" ++ key ++ "," ++ msg ++ ")".

Definition settings : UserSettings.t :=
  {| UserSettings.user_id := "u1";
     UserSettings.binance_api_key := Some "api-key";
     UserSettings.binance_secret_key := Some "secret";
     UserSettings.auto_trading_enabled := Some true;
     UserSettings.auto_tp_sl_enabled := Some true;
     UserSettings.default_stop_loss_percent := Some 5%float;
     UserSettings.default_take_profit_percent := Some 10%float;
     UserSettings.max_daily_trades := Some 1;
     UserSettings.max_position_size := Some 1000%float |}.

(** The same account with auto-trading switched off. *)
Definition settings_trading_off : UserSettings.t :=
  {| UserSettings.user_id := "u1";
     UserSettings.binance_api_key := Some "api-key";
     UserSettings.binance_secret_key := Some "secret";
     UserSettings.auto_trading_enabled := Some false;
     UserSettings.auto_tp_sl_enabled := Some true;
     UserSettings.default_stop_loss_percent := Some 5%float;
     UserSettings.default_take_profit_percent := Some 10%float;
     UserSettings.max_daily_trades := Some 1;
     UserSettings.max_position_size := Some 1000%float |}.

Definition fill : Fill.t :=
  {| Fill.price := "100"; Fill.qty := "0.001";
     Fill.commission := "0"; Fill.commissionAsset := "BNB" |}.

Definition exchange_order (side : string) (fills : option (list Fill.t))
  : BinanceOrder.t :=
  {| BinanceOrder.symbol := "BTCUSDT";
     BinanceOrder.orderId := 28;
     BinanceOrder.orderListId := -1;
     BinanceOrder.clientOrderId := "c1";
     BinanceOrder.transactTime := 1700000000000;
     BinanceOrder.price := "0";
     BinanceOrder.origQty := "0.001";
     BinanceOrder.executedQty := "0.001";
     BinanceOrder.cummulativeQuoteQty := "0";
     BinanceOrder.status := "FILLED";
     BinanceOrder.timeInForce := "GTC";
     BinanceOrder.type := "MARKET";
     BinanceOrder.side := side;
     BinanceOrder.fills := fills |}.

Definition accepted (side : string) (fills : option (list Fill.t))
  : OrderResponse :=
  mkResponse 200 "" (Some (exchange_order side fills)).

Definition rejected : OrderResponse :=
  mkResponse 400 "{code:-2010,msg:insufficient balance}" None.

(** A world with the given clock, settings row for user [u1], outcome
    of the daily-count query and answer of the order endpoint. *)
Definition world (t : Z) (s : UserSettings.t) (count_error : option string)
    (answer : OrderResponse) : World :=
  {| now := t;
     select_user_settings := fun u =>
       if String.eqb u "u1" then mkQuery (Some s) None
       else mkQuery None (Some "no rows");
     today_trades_error := count_error;
     positions_error := None;
     insert_error := fun _ => None;
     new_id := fun l => "order-" ++ Js.string_of_Z (Z.of_nat (length l));
     post_order := fun _ => Some answer;
     get_ticker := fun _ => Some (Some "100") |}.

Definition signal (side : Side) (type : OrderType) (price : option float)
    (sl tp : option float) : TradeSignal.t :=
  {| TradeSignal.symbol := "BTCUSDT";
     TradeSignal.side := side;
     TradeSignal.quantity := 0.001%float;
     TradeSignal.price := price;
     TradeSignal.type := type;
     TradeSignal.timeInForce := None;
     TradeSignal.userId := "u1";
     TradeSignal.botId := None;
     TradeSignal.stopLossPercent := sl;
     TradeSignal.takeProfitPercent := tp |}.

(** 2023-11-14T23:59:59.999Z, the last millisecond of a UTC day. *)
Definition last_ms : Z := 1700006399999.

(** A stored, filled order of user [u1], created at instant [t], with
    the given side and protective levels. *)
Definition position (name : string) (t : Z) (side : string) (sl tp : float)
  : LedgerRow :=
  mkRow name t
    {| Order.user_id := "u1";
       Order.bot_id := None;
       Order.symbol := "BTCUSDT";
       Order.side := side;
       Order.type := "MARKET";
       Order.quantity := 0.001%float;
       Order.price := None;
       Order.filled_quantity := 0.001%float;
       Order.avg_fill_price := Some 100%float;
       Order.status := "filled";
       Order.order_id := "27";
       Order.time_in_force := "GTC";
       Order.commission := 0%float;
       Order.executed_at := Some t;
       Order.stop_loss_price := Some sl;
       Order.take_profit_price := Some tp;
       Order.auto_tp_sl_enabled := Some true |}.

(** A BUY with its stop-loss at 100 and its take-profit at 110. *)
Definition stored (name : string) (t : Z) : LedgerRow :=
  position name t "BUY" 100 110.

Definition empty : State := mkState [] [] [].

(** 2023-11-14T22:13:20.000Z. *)
Definition evening : Z := 1700000000000.

(** The exchange fills a BUY at 100. *)
Definition filled_buy : OrderResponse := accepted "BUY" (Some [fill]).

(** A ledger holding one order of the user, created at [t]. *)
Definition one_order (t : Z) : State := mkState [stored "p1" t] [] [].

(** The account with the secret key missing. *)
Definition settings_no_secret : UserSettings.t :=
  {| UserSettings.user_id := "u1";
     UserSettings.binance_api_key := Some "api-key";
     UserSettings.binance_secret_key := None;
     UserSettings.auto_trading_enabled := Some true;
     UserSettings.auto_tp_sl_enabled := Some true;
     UserSettings.default_stop_loss_percent := Some 5%float;
     UserSettings.default_take_profit_percent := Some 10%float;
     UserSettings.max_daily_trades := Some 1;
     UserSettings.max_position_size := Some 1000%float |}.

(** The account with no daily cap stored. *)
Definition settings_no_cap : UserSettings.t :=
  {| UserSettings.user_id := "u1";
     UserSettings.binance_api_key := Some "api-key";
     UserSettings.binance_secret_key := Some "secret";
     UserSettings.auto_trading_enabled := Some true;
     UserSettings.auto_tp_sl_enabled := Some true;
     UserSettings.default_stop_loss_percent := Some 5%float;
     UserSettings.default_take_profit_percent := Some 10%float;
     UserSettings.max_daily_trades := None;
     UserSettings.max_position_size := Some 1000%float |}.

(** The account with auto TP/SL switched off. *)
Definition settings_tpsl_off : UserSettings.t :=
  {| UserSettings.user_id := "u1";
     UserSettings.binance_api_key := Some "api-key";
     UserSettings.binance_secret_key := Some "secret";
     UserSettings.auto_trading_enabled := Some true;
     UserSettings.auto_tp_sl_enabled := Some false;
     UserSettings.default_stop_loss_percent := Some 5%float;
     UserSettings.default_take_profit_percent := Some 10%float;
     UserSettings.max_daily_trades := Some 1;
     UserSettings.max_position_size := Some 1000%float |}.

(** The account with a cap of 50 orders a day. *)
Definition settings_cap_50 : UserSettings.t :=
  {| UserSettings.user_id := "u1";
     UserSettings.binance_api_key := Some "api-key";
     UserSettings.binance_secret_key := Some "secret";
     UserSettings.auto_trading_enabled := Some true;
     UserSettings.auto_tp_sl_enabled := Some true;
     UserSettings.default_stop_loss_percent := Some 5%float;
     UserSettings.default_take_profit_percent := Some 10%float;
     UserSettings.max_daily_trades := Some 50;
     UserSettings.max_position_size := Some 1000%float |}.

(** A world as [world], with the ledger write, the position query, the
    order endpoint and the ticker chosen freely. *)
Definition world_with (t : Z) (s : UserSettings.t)
    (write_error query_error : option string)
    (endpoint : ExchangeCall -> option OrderResponse)
    (ticker : string -> option (option string)) : World :=
  {| now := t;
     select_user_settings := fun u =>
       if String.eqb u "u1" then mkQuery (Some s) None
       else mkQuery None (Some "no rows");
     today_trades_error := None;
     positions_error := query_error;
     insert_error := fun _ => write_error;
     new_id := fun l => "order-" ++ Js.string_of_Z (Z.of_nat (length l));
     post_order := endpoint;
     get_ticker := ticker |}.

(** An order endpoint that accepts market orders and is unreachable for
    every other request. *)
Definition market_only (c : ExchangeCall) : option OrderResponse :=
  match body c with
  | Some b =>
      if Js.startsWith "symbol=BTCUSDT&side=BUY&type=MARKET" b
      then Some filled_buy else None
  | None => None
  end.

(** An order endpoint that accepts market orders and rejects every other
    request with status 400. *)
Definition market_else_400 (c : ExchangeCall) : option OrderResponse :=
  match body c with
  | Some b =>
      if Js.startsWith "symbol=BTCUSDT&side=BUY&type=MARKET" b
      then Some filled_buy else Some rejected
  | None => Some rejected
  end.

Definition env : Env := mkEnv (Some "https://project.supabase.co") (Some "service-key").

(** An environment without the service key. *)
Definition env_without_key : Env := mkEnv (Some "https://project.supabase.co") None.

(** A market BUY of a user who has no settings row. *)
Definition stranger : TradeSignal.t :=
  {| TradeSignal.symbol := "BTCUSDT";
     TradeSignal.side := BUY;
     TradeSignal.quantity := 0.001%float;
     TradeSignal.price := None;
     TradeSignal.type := MARKET;
     TradeSignal.timeInForce := None;
     TradeSignal.userId := "u2";
     TradeSignal.botId := None;
     TradeSignal.stopLossPercent := None;
     TradeSignal.takeProfitPercent := None |}.

(** Requests to the function. *)
Definition post (a : string) (s : TradeSignal.t) : Request :=
  mkRequest "POST" (Some (mkBody (Some a) s)).

Definition preflight : Request := mkRequest "OPTIONS" None.

(** The account endpoint answers 200 with a body, or 401. *)
Definition account_found (c : ExchangeCall) : option AccountResponse :=
  Some (mkAccountResponse 200 (Some "{balances:[]}")).

Definition account_denied (c : ExchangeCall) : option AccountResponse :=
  Some (mkAccountResponse 401 None).

End Sample.

(* ------------------------------------------------------------------ *)
(** ** The functions of the auto-trader *)

Section AutoTrader.

(** Built-ins of the runtime the code calls: [parseFloat], the
    conversion of a number in a template literal, and
    [createHmac('sha256', key).update(msg).digest('hex')]. *)
Variable parseFloat : string -> float.
Variable Number_toString : float -> string.
Variable hmac_sha256_hex : string -> string -> string.

Variable w : World.

(** [parseFloat] of a property that may be missing. *)
Definition parseFloat_opt (x : option string) : float :=
  match x with
  | Some s => parseFloat s
  | None => PrimFloat.nan
  end.

Definition createHmac (key : option string) (msg : string) : M string :=
  match key with
  | Some k => ret (hmac_sha256_hex k msg)
  | None => throw (Js.TypeError "The key argument must be of type string")
  end.

(** [fetch] of the order endpoint: the request goes out, then the
    response (or a network failure) comes back. *)
Definition fetch_order (c : ExchangeCall) : M OrderResponse :=
  record_call c ;;
  match post_order w c with
  | Some r => ret r
  | None => throw (Js.TypeError "fetch failed")
  end.

Definition response_json (r : OrderResponse) : M BinanceOrder.t :=
  match json r with
  | Some o => ret o
  | None => throw (Js.SyntaxError "Unexpected token in JSON")
  end.

(** The public ticker read; yields [priceData.price]. *)
Definition fetch_ticker (symbol : string) : M (option string) :=
  record_call (mkCall "GET" (ticker_url symbol) None None) ;;
  match get_ticker w symbol with
  | Some p => ret p
  | None => throw (Js.TypeError "fetch failed")
  end.

Definition select_today_trades (userId : string) (today : Z)
  : M (QueryResult (list string)) :=
  fun st =>
    match today_trades_error w with
    | Some e => (Return (mkQuery None (Some e)), st)
    | None =>
        let rows := filter (today_filter userId (T00_00_00_000Z today)
                                                (T23_59_59_999Z today))
                           (ledger st) in
        (Return (mkQuery (Some (map id rows)) None), st)
    end.

Definition select_positions (userId : string)
  : M (QueryResult (list LedgerRow)) :=
  fun st =>
    match positions_error w with
    | Some e => (Return (mkQuery None (Some e)), st)
    | None =>
        (Return (mkQuery (Some (filter (position_filter userId) (ledger st))) None), st)
    end.

(** [.from('orders').insert(orderData).select().single()]. *)
Definition insert_order (orderData : Order.t) : M (QueryResult LedgerRow) :=
  fun st =>
    match insert_error w orderData with
    | Some e => (Return (mkQuery None (Some e)), st)
    | None =>
        let r := mkRow (new_id w (ledger st)) (now w) orderData in
        (Return (mkQuery (Some r) None),
         mkState (ledger st ++ [r]) (exchange_calls st) (console st))
    end.

(** *** placeTPSLOrders *)

Definition placeTPSLOrders (userSettings : UserSettings.t)
    (originalOrder : BinanceOrder.t) (stopLossPrice takeProfitPrice : float)
  : M unit :=
  let quantity := BinanceOrder.executedQty originalOrder in
  let symbol := BinanceOrder.symbol originalOrder in
  let originalSide := BinanceOrder.side originalOrder in
  let tpSide := if String.eqb originalSide "BUY" then "SELL" else "BUY" in
  let slSide := if String.eqb originalSide "BUY" then "SELL" else "BUY" in
  let tpTimestamp := now w in
  let tpQueryString :=
    "symbol=" ++ symbol ++ "&side=" ++ tpSide ++ "&type=LIMIT&quantity=" ++ quantity
    ++ "&price=" ++ Number_toString takeProfitPrice
    ++ "&timeInForce=GTC&timestamp=" ++ Js.string_of_Z tpTimestamp in
  tpSignature <- createHmac (UserSettings.binance_secret_key userSettings) tpQueryString ;;
  fetch_order (mkCall "POST" order_url (UserSettings.binance_api_key userSettings)
                      (Some (tpQueryString ++ "&signature=" ++ tpSignature))) ;;
  let slTimestamp := now w in
  let slQueryString :=
    "symbol=" ++ symbol ++ "&side=" ++ slSide ++ "&type=STOP_MARKET&quantity=" ++ quantity
    ++ "&stopPrice=" ++ Number_toString stopLossPrice
    ++ "&timestamp=" ++ Js.string_of_Z slTimestamp in
  slSignature <- createHmac (UserSettings.binance_secret_key userSettings) slQueryString ;;
  fetch_order (mkCall "POST" order_url (UserSettings.binance_api_key userSettings)
                      (Some (slQueryString ++ "&signature=" ++ slSignature))) ;;
  ret tt.

(** *** executeTrade *)

(** [binanceOrder.fills && binanceOrder.fills.length > 0]. *)
Definition has_fills (o : BinanceOrder.t) : bool :=
  match BinanceOrder.fills o with
  | Some (_ :: _) => true
  | _ => false
  end.

(** [binanceOrder.fills[0]], read only under [has_fills]. *)
Definition fill0 (o : BinanceOrder.t) : option Fill.t :=
  match BinanceOrder.fills o with
  | Some (f :: _) => Some f
  | _ => None
  end.

(** The percentages of lines 171-172. *)
Definition slPercent (signal : TradeSignal.t) (userSettings : UserSettings.t)
  : option float :=
  Js.or_num (TradeSignal.stopLossPercent signal)
            (UserSettings.default_stop_loss_percent userSettings).

Definition tpPercent (signal : TradeSignal.t) (userSettings : UserSettings.t)
  : option float :=
  Js.or_num (TradeSignal.takeProfitPercent signal)
            (UserSettings.default_take_profit_percent userSettings).

(** "Calculate TP/SL prices if auto TP/SL is enabled": the pair
    [(stopLossPrice, takeProfitPrice)] after the block. *)
Definition protective_prices (userSettings : UserSettings.t)
    (signal : TradeSignal.t) (binanceOrder : BinanceOrder.t)
  : option float * option float :=
  if Js.truthy_bool (UserSettings.auto_tp_sl_enabled userSettings)
     && has_fills binanceOrder
  then
    let avgPrice := parseFloat_opt (option_map Fill.price (fill0 binanceOrder)) in
    let sl := Js.ToNumber (slPercent signal userSettings) in
    let tp := Js.ToNumber (tpPercent signal userSettings) in
    match TradeSignal.side signal with
    | BUY => (Some (avgPrice * (1 - sl / 100))%float,
              Some (avgPrice * (1 + tp / 100))%float)
    | SELL => (Some (avgPrice * (1 + sl / 100))%float,
               Some (avgPrice * (1 - tp / 100))%float)
    end
  else (None, None).

(** "Save order to database": the [orderData] object. *)
Definition orderData (userSettings : UserSettings.t) (signal : TradeSignal.t)
    (binanceOrder : BinanceOrder.t) (stopLossPrice takeProfitPrice : option float)
  : Order.t :=
  {| Order.user_id := TradeSignal.userId signal;
     Order.bot_id := TradeSignal.botId signal;
     Order.symbol := BinanceOrder.symbol binanceOrder;
     Order.side := BinanceOrder.side binanceOrder;
     Order.type := BinanceOrder.type binanceOrder;
     Order.quantity := parseFloat (BinanceOrder.origQty binanceOrder);
     Order.price :=
       if Js.truthy_string (BinanceOrder.price binanceOrder)
       then Some (parseFloat (BinanceOrder.price binanceOrder)) else None;
     Order.filled_quantity := parseFloat (BinanceOrder.executedQty binanceOrder);
     Order.avg_fill_price :=
       if has_fills binanceOrder
       then Some (parseFloat_opt (option_map Fill.price (fill0 binanceOrder)))
       else None;
     Order.status := Js.toLowerCase (BinanceOrder.status binanceOrder);
     Order.order_id := Js.string_of_Z (BinanceOrder.orderId binanceOrder);
     Order.time_in_force := BinanceOrder.timeInForce binanceOrder;
     Order.commission :=
       if has_fills binanceOrder
       then parseFloat_opt (option_map Fill.commission (fill0 binanceOrder))
       else PrimFloat.zero;
     Order.executed_at :=
       if String.eqb (BinanceOrder.status binanceOrder) "FILLED"
       then Some (now w) else None;
     Order.stop_loss_price := stopLossPrice;
     Order.take_profit_price := takeProfitPrice;
     Order.auto_tp_sl_enabled := UserSettings.auto_tp_sl_enabled userSettings |}.

(** The query string as first bound (line 136). *)
Definition queryString0 (signal : TradeSignal.t) (timestamp : Z) : string :=
  "symbol=" ++ TradeSignal.symbol signal
  ++ "&side=" ++ Side_str (TradeSignal.side signal)
  ++ "&type=" ++ OrderType_str (TradeSignal.type signal)
  ++ "&quantity=" ++ Number_toString (TradeSignal.quantity signal)
  ++ "&timestamp=" ++ Js.string_of_Z timestamp.

(** The right-hand side of the [+=] of line 139. *)
Definition limit_suffix (signal : TradeSignal.t) : string :=
  "&price=" ++ Number_toString (Js.ToNumber (TradeSignal.price signal))
  ++ "&timeInForce="
  ++ match TradeSignal.timeInForce signal with
     | Some tif => TimeInForce_str tif
     | None => "GTC"
     end.

(** [executeTrade] from the arrival of the exchange's response on
    (lines 156-240): the status test, the protective levels, the
    ledger write, the protective orders and the returned body. *)
Definition after_response (userSettings : UserSettings.t)
    (signal : TradeSignal.t) (binanceResponse : OrderResponse)
  : M TradeResponse :=
  if negb (ok binanceResponse) then
    console_error "Binance API error:" ;;
    throw (Js.Error ("Binance API error: " ++ Js.string_of_Z (status binanceResponse)
                     ++ " " ++ text binanceResponse))
  else
  binanceOrder <- response_json binanceResponse ;;
  console_log "Binance order response:" ;;
  (* Calculate TP/SL prices if auto TP/SL is enabled *)
  let '(stopLossPrice, takeProfitPrice) :=
    protective_prices userSettings signal binanceOrder in
  (* Save order to database *)
  saved <- insert_order (orderData userSettings signal binanceOrder
                                   stopLossPrice takeProfitPrice) ;;
  if isSome (error saved) then
    console_error "Error saving order:" ;;
    throw (Js.Error "Failed to save order to database")
  else
  (* If auto TP/SL is enabled and order is filled, place TP/SL orders *)
  (if Js.truthy_bool (UserSettings.auto_tp_sl_enabled userSettings)
      && String.eqb (BinanceOrder.status binanceOrder) "FILLED"
      && Js.truthy_num stopLossPrice && Js.truthy_num takeProfitPrice
   then
     try_catch
       (placeTPSLOrders userSettings binanceOrder
                        (Js.ToNumber stopLossPrice) (Js.ToNumber takeProfitPrice))
       (fun tpslError => console_error "Error placing TP/SL orders:")
   else ret tt) ;;
  ret {| success := true;
         order := data saved;
         binanceOrder := binanceOrder;
         tpSlEnabled := UserSettings.auto_tp_sl_enabled userSettings;
         stopLossPrice := stopLossPrice;
         takeProfitPrice := takeProfitPrice |}.

Definition executeTrade (signal : TradeSignal.t) : M TradeResponse :=
  console_log "Executing trade signal:" ;;
  let q := select_user_settings w (TradeSignal.userId signal) in
  match (if isSome (error q) then None else data q) with
  | None => throw (Js.Error "User settings not found")
  | Some userSettings =>
  if negb (Js.truthy_bool (UserSettings.auto_trading_enabled userSettings))
  then throw (Js.Error "Auto trading is disabled for this user") else
  if negb (Js.truthy_str (UserSettings.binance_api_key userSettings))
     || negb (Js.truthy_str (UserSettings.binance_secret_key userSettings))
  then throw (Js.Error "Binance API credentials not configured") else
  (* Check daily trade limit *)
  let today := utc_day (now w) in
  t <- select_today_trades (TradeSignal.userId signal) today ;;
  (if isSome (error t) then console_error "Error checking daily trades:" else ret tt) ;;
  if match data t with
     | Some todayTrades =>
         Z.of_nat (length todayTrades)
           >=? Js.ToInteger (UserSettings.max_daily_trades userSettings)
     | None => false
     end
  then throw (Js.Error "Daily trade limit reached") else
  (* Check position size limit *)
  let tradeValue :=
    (TradeSignal.quantity signal
     * Js.ToNumber (Js.or_num (TradeSignal.price signal) (Some PrimFloat.zero)))%float in
  if Js.gt tradeValue (Js.ToNumber (UserSettings.max_position_size userSettings))
  then throw (Js.Error "Trade size exceeds maximum position size") else
  (* Generate signature for Binance API *)
  let timestamp := now w in
  queryString <-
    (if Js.truthy_num (TradeSignal.price signal)
        && OrderType_eqb (TradeSignal.type signal) LIMIT
     then assign_const "queryString" (queryString0 signal timestamp ++ limit_suffix signal)
     else ret (queryString0 signal timestamp)) ;;
  signature <- createHmac (UserSettings.binance_secret_key userSettings) queryString ;;
  (* Execute trade on Binance *)
  binanceResponse <-
    fetch_order (mkCall "POST" order_url (UserSettings.binance_api_key userSettings)
                        (Some (queryString ++ "&signature=" ++ signature))) ;;
  after_response userSettings signal binanceResponse
  end.

(** *** checkTakeProfitStopLoss *)

(** "Check if TP/SL should trigger": the values of [shouldTrigger] and
    [triggerType] after the test. *)
Definition trigger_check (position : LedgerRow) (currentPrice : float)
  : bool * string :=
  let shouldTrigger := false in
  let triggerType := "" in
  if String.eqb (Order.side (row position)) "BUY" then
    if Js.le currentPrice (Js.ToNumber (Order.stop_loss_price (row position)))
    then (true, "STOP_LOSS")
    else if Js.ge currentPrice (Js.ToNumber (Order.take_profit_price (row position)))
    then (true, "TAKE_PROFIT")
    else (shouldTrigger, triggerType)
  else
    if Js.ge currentPrice (Js.ToNumber (Order.stop_loss_price (row position)))
    then (true, "STOP_LOSS")
    else if Js.le currentPrice (Js.ToNumber (Order.take_profit_price (row position)))
    then (true, "TAKE_PROFIT")
    else (shouldTrigger, triggerType).

(** "Execute closing trade": the signal built for a triggered position. *)
Definition closeSignal (userId : string) (position : LedgerRow) : TradeSignal.t :=
  {| TradeSignal.symbol := Order.symbol (row position);
     TradeSignal.side :=
       if String.eqb (Order.side (row position)) "BUY" then SELL else BUY;
     TradeSignal.quantity := Order.filled_quantity (row position);
     TradeSignal.price := None;
     TradeSignal.type := MARKET;
     TradeSignal.timeInForce := None;
     TradeSignal.userId := userId;
     TradeSignal.botId := Order.bot_id (row position);
     TradeSignal.stopLossPercent := None;
     TradeSignal.takeProfitPercent := None |}.

(** The body of the loop over the positions, with its [try]/[catch]. *)
Definition process_position (userId : string) (position : LedgerRow)
    (results : list ResultEntry) : M (list ResultEntry) :=
  try_catch
    (price <- fetch_ticker (Order.symbol (row position)) ;;
     let currentPrice := parseFloat_opt price in
     let '(shouldTrigger, triggerType) := trigger_check position currentPrice in
     if shouldTrigger then
       closeResult <- executeTrade (closeSignal userId position) ;;
       ret (results ++ [Closed (id position) triggerType currentPrice closeResult])%list
     else ret results)
    (fun error =>
       console_error "Error processing position" ;;
       ret (results ++ [Failed (id position) (Js.message error)])%list).

(** [for (const position of positions || [])]. *)
Fixpoint for_positions (userId : string) (positions : list LedgerRow)
    (results : list ResultEntry) : M (list ResultEntry) :=
  match positions with
  | [] => ret results
  | position :: rest =>
      results' <- process_position userId position results ;;
      for_positions userId rest results'
  end.

Definition checkTakeProfitStopLoss (userId : string) : M CheckResponse :=
  let q := select_user_settings w userId in
  match (if isSome (error q) then None else data q) with
  | None => ret (Message "Auto TP/SL not enabled")
  | Some userSettings =>
  if negb (Js.truthy_bool (UserSettings.auto_tp_sl_enabled userSettings))
  then ret (Message "Auto TP/SL not enabled") else
  p <- select_positions userId ;;
  if isSome (error p) then throw (Js.Error "Failed to fetch positions") else
  results <- for_positions userId
               (match data p with Some positions => positions | None => [] end) [] ;;
  ret (Results results)
  end.

(** *** getAccountInfo *)

Variable get_account : ExchangeCall -> option AccountResponse.

(** [fetch] of the account endpoint. *)
Definition fetch_account (c : ExchangeCall) : M AccountResponse :=
  record_call c ;;
  match get_account c with
  | Some r => ret r
  | None => throw (Js.TypeError "fetch failed")
  end.

Definition getAccountInfo (userId : string) : M string :=
  let q := select_user_settings w userId in
  match (if isSome (error q) then None else data q) with
  | None => throw (Js.Error "User settings not found")
  | Some userSettings =>
  if negb (Js.truthy_str (UserSettings.binance_api_key userSettings))
     || negb (Js.truthy_str (UserSettings.binance_secret_key userSettings))
  then throw (Js.Error "Binance API credentials not configured") else
  let timestamp := now w in
  let queryString := "timestamp=" ++ Js.string_of_Z timestamp in
  signature <- createHmac (UserSettings.binance_secret_key userSettings) queryString ;;
  accountResponse <-
    fetch_account (mkCall "GET" (account_url (queryString ++ "&signature=" ++ signature))
                          (UserSettings.binance_api_key userSettings) None) ;;
  if negb (account_ok accountResponse) then
    throw (Js.Error ("Binance API error: "
                     ++ Js.string_of_Z (account_status accountResponse)))
  else
  match account_json accountResponse with
  | Some accountData => ret accountData
  | None => throw (Js.SyntaxError "Unexpected token in JSON")
  end
  end.

(** *** The entry point *)

Variable env : Env.

(** The handler passed to [Deno.serve]: the preflight answer, then the
    dispatch on [action] inside one [try]/[catch]. *)
Definition serve (req : Request) : M Reply :=
  if String.eqb (request_method req) "OPTIONS" then ret (mkReply 200 NoBody) else
  try_catch
    (if negb (Js.truthy_str (SUPABASE_URL env))
        || negb (Js.truthy_str (SUPABASE_SERVICE_ROLE_KEY env))
     then throw (Js.Error "Supabase configuration missing") else
     match request_json req with
     | None => throw (Js.SyntaxError "Unexpected token in JSON")
     | Some b =>
         match action b with
         | Some a =>
             if String.eqb a "execute_trade" then
               r <- executeTrade (payload b) ;;
               ret (mkReply 200 (TradeBody r))
             else if String.eqb a "check_tp_sl" then
               r <- checkTakeProfitStopLoss (TradeSignal.userId (payload b)) ;;
               ret (mkReply 200 (CheckBody r))
             else if String.eqb a "get_account_info" then
               r <- getAccountInfo (TradeSignal.userId (payload b)) ;;
               ret (mkReply 200 (AccountBody r))
             else throw (Js.Error "Invalid action")
         | None => throw (Js.Error "Invalid action")
         end
     end)
    (fun error =>
       console_error "Auto trader error:" ;;
       ret (mkReply 500 (ErrorBody (Js.message error)))).

(** *** Conditions on a request, for the statements below *)

(** The settings row is found, auto-trading is on and both credentials
    are present: the three configuration tests pass. *)
Definition configured (signal : TradeSignal.t) (userSettings : UserSettings.t)
  : Prop :=
  select_user_settings w (TradeSignal.userId signal)
    = mkQuery (Some userSettings) None
  /\ Js.truthy_bool (UserSettings.auto_trading_enabled userSettings) = true
  /\ Js.truthy_str (UserSettings.binance_api_key userSettings) = true
  /\ Js.truthy_str (UserSettings.binance_secret_key userSettings) = true.

(** The stored orders the daily-limit query selects in state [st]. *)
Definition todays_orders (userId : string) (st : State) : list LedgerRow :=
  filter (today_filter userId (T00_00_00_000Z (utc_day (now w)))
                              (T23_59_59_999Z (utc_day (now w))))
         (ledger st).

(** The daily-limit test lets the request through. *)
Definition within_daily_limit (signal : TradeSignal.t)
    (userSettings : UserSettings.t) (st : State) : Prop :=
  today_trades_error w = None ->
  Z.of_nat (length (todays_orders (TradeSignal.userId signal) st))
    < Js.ToInteger (UserSettings.max_daily_trades userSettings).

(** The position-size test lets the request through. *)
Definition within_position_size (signal : TradeSignal.t)
    (userSettings : UserSettings.t) : Prop :=
  Js.gt (TradeSignal.quantity signal
         * Js.ToNumber (Js.or_num (TradeSignal.price signal) (Some PrimFloat.zero)))%float
        (Js.ToNumber (UserSettings.max_position_size userSettings)) = false.

(** The request takes the branch of line 138. *)
Definition limit_with_price (signal : TradeSignal.t) : bool :=
  Js.truthy_num (TradeSignal.price signal)
  && OrderType_eqb (TradeSignal.type signal) LIMIT.

Definition secret_of (userSettings : UserSettings.t) : string :=
  match UserSettings.binance_secret_key userSettings with
  | Some k => k
  | None => ""
  end.

(** The request [executeTrade] sends for a signal that does not take
    the branch of line 138. *)
Definition order_request (signal : TradeSignal.t) (userSettings : UserSettings.t)
  : ExchangeCall :=
  mkCall "POST" order_url (UserSettings.binance_api_key userSettings)
    (Some (queryString0 signal (now w) ++ "&signature="
           ++ hmac_sha256_hex (secret_of userSettings) (queryString0 signal (now w)))).

(** The test of line 216. *)
Definition places_protective (userSettings : UserSettings.t)
    (binanceOrder : BinanceOrder.t) (stopLossPrice takeProfitPrice : option float)
  : bool :=
  Js.truthy_bool (UserSettings.auto_tp_sl_enabled userSettings)
  && String.eqb (BinanceOrder.status binanceOrder) "FILLED"
  && Js.truthy_num stopLossPrice && Js.truthy_num takeProfitPrice.

(** The levels of the design: for a BUY the stop is below and the
    target above the reference price, for a SELL the other way round. *)
Definition levels (side : Side) (P sl tp : float) : float * float :=
  match side with
  | BUY => (P * (1 - sl / 100), P * (1 + tp / 100))%float
  | SELL => (P * (1 + sl / 100), P * (1 - tp / 100))%float
  end.

(** The levels of C4: the factors 0.95, 1.10, 1.05 and 0.90 are the
    doubles the source's [1 - 5 / 100], [1 + 10 / 100], [1 + 5 / 100]
    and [1 - 10 / 100] evaluate to. *)
Definition levels_5_10 (side : Side) (P : float) : float * float :=
  match side with
  | BUY => (P * 0.95, P * 1.10)%float
  | SELL => (P * 1.05, P * 0.90)%float
  end.

(** C5 as stated: a per-call percentage is used whenever it is given. *)
Definition percent_as_stated (per_call account_default : option float)
  : option float :=
  match per_call with
  | Some v => Some v
  | None => account_default
  end.

(** C5 as amended: a per-call percentage is used when it is given and is
    neither zero nor NaN; otherwise the account default is. *)
Definition percent_in_force (per_call account_default : option float)
  : option float :=
  match per_call with
  | Some v =>
      if PrimFloat.is_zero v || PrimFloat.is_nan v then account_default else Some v
  | None => account_default
  end.

(** What [results] receives for a position when [executeTrade] refuses
    the closing trade with the message [msg]: nothing when no level is
    crossed, and one failure entry otherwise. *)
Definition refused_entry (msg : string) (position : LedgerRow)
  : list ResultEntry :=
  match get_ticker w (Order.symbol (row position)) with
  | None => [Failed (id position) "fetch failed"]
  | Some price =>
      if fst (trigger_check position (parseFloat_opt price))
      then [Failed (id position) msg]
      else []
  end.

(** A later state keeps what an earlier one had: rows, requests and
    console lines are only ever appended. *)
Definition extends (st st' : State) : Prop :=
  (exists rows, ledger st' = (ledger st ++ rows)%list)
  /\ (exists calls, exchange_calls st' = (exchange_calls st ++ calls)%list)
  /\ (exists logs, console st' = (console st ++ logs)%list).

(** The opposite side, as [placeTPSLOrders] computes it from the side the
    exchange reports. *)
Definition opposite (side : string) : string :=
  if String.eqb side "BUY" then "SELL" else "BUY".

(** The take-profit request of [placeTPSLOrders]. *)
Definition take_profit_request (userSettings : UserSettings.t)
    (o : BinanceOrder.t) (takeProfitPrice : float) : ExchangeCall :=
  let qs :=
    "symbol=" ++ BinanceOrder.symbol o ++ "&side=" ++ opposite (BinanceOrder.side o)
    ++ "&type=LIMIT&quantity=" ++ BinanceOrder.executedQty o
    ++ "&price=" ++ Number_toString takeProfitPrice
    ++ "&timeInForce=GTC&timestamp=" ++ Js.string_of_Z (now w) in
  mkCall "POST" order_url (UserSettings.binance_api_key userSettings)
    (Some (qs ++ "&signature=" ++ hmac_sha256_hex (secret_of userSettings) qs)).

(** The stop-loss request of [placeTPSLOrders]. *)
Definition stop_loss_request (userSettings : UserSettings.t)
    (o : BinanceOrder.t) (stopLossPrice : float) : ExchangeCall :=
  let qs :=
    "symbol=" ++ BinanceOrder.symbol o ++ "&side=" ++ opposite (BinanceOrder.side o)
    ++ "&type=STOP_MARKET&quantity=" ++ BinanceOrder.executedQty o
    ++ "&stopPrice=" ++ Number_toString stopLossPrice
    ++ "&timestamp=" ++ Js.string_of_Z (now w) in
  mkCall "POST" order_url (UserSettings.binance_api_key userSettings)
    (Some (qs ++ "&signature=" ++ hmac_sha256_hex (secret_of userSettings) qs)).

(** The row [executeTrade] writes for the order [o] when the ledger is
    [l]. *)
Definition saved_row (signal : TradeSignal.t) (userSettings : UserSettings.t)
    (o : BinanceOrder.t) (l : list LedgerRow) : LedgerRow :=
  mkRow (new_id w l) (now w)
        (orderData userSettings signal o
                   (fst (protective_prices userSettings signal o))
                   (snd (protective_prices userSettings signal o))).

(** The request of [getAccountInfo]. *)
Definition account_request (userSettings : UserSettings.t) : ExchangeCall :=
  let qs := "timestamp=" ++ Js.string_of_Z (now w) in
  mkCall "GET"
    (account_url (qs ++ "&signature=" ++ hmac_sha256_hex (secret_of userSettings) qs))
    (UserSettings.binance_api_key userSettings) None.

(** The ticker read of one position. *)
Definition ticker_request (position : LedgerRow) : ExchangeCall :=
  mkCall "GET" (ticker_url (Order.symbol (row position))) None None.

Definition is_ticker_get (c : ExchangeCall) : bool :=
  String.eqb (method c) "GET"
  && Js.startsWith "https://api.binance.com/api/v3/ticker/price?symbol=" (url c).

(** The open positions of a user in a ledger. *)
Definition open_positions (userId : string) (l : list LedgerRow) : list LedgerRow :=
  filter (position_filter userId) l.

(** The console lines of [executeTrade] up to the sending of the order. *)
Definition checks_log : list string :=
  "Executing trade signal:"
  :: match today_trades_error w with
     | Some _ => ["Error checking daily trades:"]
     | None => []
     end.

(** The environment holds both variables. *)
Definition env_configured : bool :=
  Js.truthy_str (SUPABASE_URL env) && Js.truthy_str (SUPABASE_SERVICE_ROLE_KEY env).

(** *** Properties *)

Local Open Scope list_scope.

Local Arguments String.append : simpl never.
Local Arguments utc_day : simpl never.
Local Arguments T00_00_00_000Z : simpl never.
Local Arguments T23_59_59_999Z : simpl never.
Local Arguments Js.string_of_Z : simpl never.
Local Arguments Z.geb : simpl never.
Local Arguments Z.of_nat : simpl never.

Lemma truthy_str_some (x : option string) :
  Js.truthy_str x = true -> exists k, x = Some k.
Proof. destruct x as [k|]; [eauto | discriminate]. Qed.

(** Past the checks: the signed request goes out, and the rest of the
    run is [after_response] on what the exchange answers. *)
Lemma executeTrade_reaches_exchange
    (signal : TradeSignal.t) (st : State) (userSettings : UserSettings.t) :
  configured signal userSettings ->
  within_daily_limit signal userSettings st ->
  within_position_size signal userSettings ->
  limit_with_price signal = false ->
  exists log,
    executeTrade signal st =
      (let st1 := mkState (ledger st)
                          (exchange_calls st ++ [order_request signal userSettings])
                          log in
       match post_order w (order_request signal userSettings) with
       | Some r => after_response userSettings signal r st1
       | None => (Throw (Js.TypeError "fetch failed"), st1)
       end)
    /\ (today_trades_error w <> None -> In "Error checking daily trades:" log).
Proof.
  intros (Hq & Hon & Hapi & Hsec) Hday Hsize Hbranch.
  destruct (truthy_str_some _ Hsec) as [k Hk].
  unfold executeTrade, bind at 1, console_log.
  rewrite Hq. cbn [isSome error data]. rewrite Hon, Hapi, Hsec. cbn [negb orb].
  unfold within_daily_limit, todays_orders in Hday.
  unfold within_position_size in Hsize. unfold limit_with_price in Hbranch.
  unfold bind, select_today_trades, console_error, console_log, ret, fetch_order,
    record_call, createHmac.
  rewrite Hsize, Hbranch, Hk.
  unfold order_request, secret_of. rewrite Hk.
  destruct (today_trades_error w) as [e|] eqn:Herr; cbn.
  - eexists. split; [destruct (post_order w _); reflexivity|].
    intros _. apply in_or_app. right. now left.
  - specialize (Hday eq_refl). rewrite length_map.
    destruct (Z.geb_spec (Z.of_nat (length (filter
                (today_filter (TradeSignal.userId signal)
                   (T00_00_00_000Z (utc_day (now w)))
                   (T23_59_59_999Z (utc_day (now w)))) (ledger st))))
               (Js.ToInteger (UserSettings.max_daily_trades userSettings))); [lia|].
    eexists. split; [destruct (post_order w _); reflexivity|].
    intros Hne. now elim Hne.
Qed.

(** The protective-order placer touches only the list of requests and
    the console. *)
Lemma placeTPSLOrders_effect (userSettings : UserSettings.t)
    (o : BinanceOrder.t) (sl tp : float) (st : State) :
  exists res extra,
    placeTPSLOrders userSettings o sl tp st
    = (res, mkState (ledger st) (exchange_calls st ++ extra) (console st)).
Proof.
  unfold placeTPSLOrders, bind, createHmac, fetch_order, record_call, throw, ret, bind.
  destruct (UserSettings.binance_secret_key userSettings) as [k|]; cbn.
  - destruct (post_order w _); cbn.
    + destruct (post_order w _); cbn; eexists _, _;
        rewrite <- app_assoc; reflexivity.
    + eexists _, _. reflexivity.
  - exists (Throw (Js.TypeError "The key argument must be of type string")), [].
    rewrite app_nil_r. now destruct st.
Qed.

(** Once invoked with a secret key, the placer sends at least its
    take-profit request: a run without further requests is a run that
    did not invoke it. *)
Lemma placeTPSLOrders_sends (userSettings : UserSettings.t)
    (o : BinanceOrder.t) (sl tp : float) (st : State) (k : string) :
  UserSettings.binance_secret_key userSettings = Some k ->
  exchange_calls (snd (placeTPSLOrders userSettings o sl tp st))
    <> exchange_calls st.
Proof.
  intros Hk.
  unfold placeTPSLOrders, bind, createHmac, fetch_order, record_call, throw, ret, bind.
  rewrite Hk. cbn.
  destruct (post_order w _); cbn; [destruct (post_order w _); cbn|];
    intros E; apply (f_equal (@length _)) in E;
    rewrite !length_app in E; cbn in E; lia.
Qed.

(** A response outside 200-299: the error carries status and body, and
    nothing but the console changes. *)
Lemma after_response_rejected (userSettings : UserSettings.t)
    (signal : TradeSignal.t) (r : OrderResponse) (st : State) :
  ok r = false ->
  after_response userSettings signal r st
  = (Throw (Js.Error ("Binance API error: " ++ Js.string_of_Z (status r)
                      ++ " " ++ text r)),
     mkState (ledger st) (exchange_calls st) (console st ++ ["Binance API error:"])).
Proof.
  intros Hok. unfold after_response. rewrite Hok. reflexivity.
Qed.

(** A 2xx response with an order in it, and a ledger write that
    succeeds: the run returns, the row is appended, and requests are
    added only when the test of line 216 holds. *)
Lemma after_response_accepted (userSettings : UserSettings.t)
    (signal : TradeSignal.t) (r : OrderResponse) (o : BinanceOrder.t) (st : State) :
  ok r = true ->
  json r = Some o ->
  let sl := fst (protective_prices userSettings signal o) in
  let tp := snd (protective_prices userSettings signal o) in
  let od := orderData userSettings signal o sl tp in
  let saved := mkRow (new_id w (ledger st)) (now w) od in
  insert_error w od = None ->
  exists extra log,
    after_response userSettings signal r st
    = (Return (mkTradeResponse true (Some saved) o
                 (UserSettings.auto_tp_sl_enabled userSettings) sl tp),
       mkState (ledger st ++ [saved]) (exchange_calls st ++ extra) log)
    /\ (places_protective userSettings o sl tp = false -> extra = []).
Proof.
  intros Hok Hjson sl tp od saved Hins.
  unfold after_response. rewrite Hok. cbn [negb].
  unfold bind at 1, response_json. rewrite Hjson.
  unfold ret at 1, bind at 1, console_log at 1, bind at 1.
  subst saved od sl tp.
  destruct (protective_prices userSettings signal o) as [sl tp]. cbn [fst snd] in *.
  unfold insert_order. rewrite Hins. cbn [isSome error data ledger exchange_calls console].
  unfold bind at 1. unfold places_protective.
  destruct (Js.truthy_bool (UserSettings.auto_tp_sl_enabled userSettings)
            && String.eqb (BinanceOrder.status o) "FILLED"
            && Js.truthy_num sl && Js.truthy_num tp) eqn:Hplace.
  - unfold try_catch.
    match goal with
    | |- context [placeTPSLOrders ?u ?b ?x ?y ?s] =>
        destruct (placeTPSLOrders_effect u b x y s) as (res & extra & Hrun);
        rewrite Hrun
    end.
    destruct res; cbn; eexists _, _; (split; [reflexivity | discriminate]).
  - cbn. exists [], (console st ++ ["Binance order response:"])%list.
    rewrite app_nil_r. split; reflexivity.
Qed.

(** The same response when the ledger write fails: the run throws, and
    neither the ledger nor the list of requests changes. *)
Lemma after_response_not_saved (userSettings : UserSettings.t)
    (signal : TradeSignal.t) (r : OrderResponse) (o : BinanceOrder.t) (st : State)
    (e : string) :
  ok r = true ->
  json r = Some o ->
  insert_error w (orderData userSettings signal o
                    (fst (protective_prices userSettings signal o))
                    (snd (protective_prices userSettings signal o))) = Some e ->
  exists log,
    after_response userSettings signal r st
    = (Throw (Js.Error "Failed to save order to database"),
       mkState (ledger st) (exchange_calls st) log).
Proof.
  intros Hok Hjson Hins.
  unfold after_response. rewrite Hok. cbn [negb].
  unfold bind at 1, response_json. rewrite Hjson.
  unfold ret at 1, bind at 1, console_log at 1, bind at 1.
  destruct (protective_prices userSettings signal o) as [sl tp]. cbn [fst snd] in *.
  unfold insert_order. rewrite Hins. cbn. eexists. reflexivity.
Qed.

Ltac appended :=
  cbn [ledger exchange_calls console];
  first [ now (exists []; rewrite app_nil_r)
        | now (eexists; reflexivity)
        | now (eexists; rewrite <- app_assoc; reflexivity) ].

Ltac extended := unfold extends; repeat split; appended.

Lemma after_response_extends (userSettings : UserSettings.t)
    (signal : TradeSignal.t) (r : OrderResponse) (st : State) :
  extends st (snd (after_response userSettings signal r st)).
Proof.
  unfold after_response.
  destruct (ok r); cbn [negb]; [|cbn; extended].
  unfold bind at 1, response_json.
  destruct (json r) as [o|]; [|cbn; extended].
  unfold ret at 1, bind at 1, console_log at 1, bind at 1.
  destruct (protective_prices userSettings signal o) as [sl tp].
  unfold insert_order.
  destruct (insert_error w _) as [e|]; [cbn; extended|].
  cbn [isSome error data ledger exchange_calls console]. unfold bind at 1.
  destruct (Js.truthy_bool (UserSettings.auto_tp_sl_enabled userSettings)
            && String.eqb (BinanceOrder.status o) "FILLED"
            && Js.truthy_num sl && Js.truthy_num tp); [|cbn; extended].
  unfold try_catch.
  match goal with
  | |- context [placeTPSLOrders ?u ?b ?x ?y ?s] =>
      destruct (placeTPSLOrders_effect u b x y s) as (res & extra & Hrun);
      rewrite Hrun
  end.
  destruct res; cbn; extended.
Qed.

(** C3: when the user's settings row has auto-trading off, [executeTrade]
    throws an error of kind ConfigurationError (the "disabled" one when
    the settings query reports no error), sends nothing to the exchange
    and leaves the ledger as it was. *)
Theorem executeTrade_auto_trading_disabled
    (signal : TradeSignal.t) (st : State) (userSettings : UserSettings.t) :
  data (select_user_settings w (TradeSignal.userId signal)) = Some userSettings ->
  Js.truthy_bool (UserSettings.auto_trading_enabled userSettings) = false ->
  exists msg st',
    executeTrade signal st = (Throw (Js.Error msg), st')
    /\ error_kind (Js.Error msg) = Some ConfigurationError
    /\ (error (select_user_settings w (TradeSignal.userId signal)) = None ->
        msg = "Auto trading is disabled for this user")
    /\ exchange_calls st' = exchange_calls st
    /\ ledger st' = ledger st.
Proof.
  intros Hdata Hoff.
  unfold executeTrade, bind, console_log.
  destruct (error (select_user_settings w (TradeSignal.userId signal))) as [e|] eqn:He;
    cbn [isSome].
  - eexists _, _. split; [reflexivity|]. repeat split; [discriminate].
  - rewrite Hdata, Hoff. cbn [negb].
    eexists _, _. split; [reflexivity|]. repeat split.
Qed.

Lemma error_kind_exchange (tail : string) :
  error_kind (Js.Error ("Binance API error: " ++ tail)) = Some ExchangeError.
Proof. reflexivity. Qed.

Lemma market_skips_branch (signal : TradeSignal.t) :
  TradeSignal.type signal = MARKET -> limit_with_price signal = false.
Proof.
  intros Hm. unfold limit_with_price. rewrite Hm. apply andb_false_r.
Qed.

(** A LIMIT request with a truthy price that passes the checks stops at
    the [+=] of line 139. *)
Lemma executeTrade_limit_with_price
    (signal : TradeSignal.t) (st : State) (userSettings : UserSettings.t) :
  configured signal userSettings ->
  within_daily_limit signal userSettings st ->
  within_position_size signal userSettings ->
  limit_with_price signal = true ->
  exists log,
    executeTrade signal st
    = (Throw (Js.TypeError "Assignment to constant variable."),
       mkState (ledger st) (exchange_calls st) log).
Proof.
  intros (Hq & Hon & Hapi & Hsec) Hday Hsize Hbranch.
  unfold executeTrade, bind at 1, console_log.
  rewrite Hq. cbn [isSome error data]. rewrite Hon, Hapi, Hsec. cbn [negb orb].
  unfold within_daily_limit, todays_orders in Hday.
  unfold within_position_size in Hsize. unfold limit_with_price in Hbranch.
  unfold bind, select_today_trades, console_error, console_log, ret, assign_const, throw.
  rewrite Hsize, Hbranch.
  destruct (today_trades_error w) as [e|] eqn:Herr; cbn.
  - eexists. reflexivity.
  - specialize (Hday eq_refl). rewrite length_map.
    destruct (Z.geb_spec (Z.of_nat (length (filter
                (today_filter (TradeSignal.userId signal)
                   (T00_00_00_000Z (utc_day (now w)))
                   (T23_59_59_999Z (utc_day (now w)))) (ledger st))))
               (Js.ToInteger (UserSettings.max_daily_trades userSettings))); [lia|].
    eexists. reflexivity.
Qed.

(** C1: what the code does with a LIMIT request that has a price.  Every
    such request that passes the configuration and limit checks ends in
    the TypeError of the assignment to the [const] binding [queryString]:
    no signature is computed over a string with price and timeInForce,
    nothing is sent to the exchange and nothing is stored. *)
Theorem executeTrade_limit_order_faults
    (signal : TradeSignal.t) (st : State) (userSettings : UserSettings.t)
    (p : float) :
  configured signal userSettings ->
  within_daily_limit signal userSettings st ->
  within_position_size signal userSettings ->
  TradeSignal.type signal = LIMIT ->
  TradeSignal.price signal = Some p ->
  Js.truthy_number p = true ->
  fst (executeTrade signal st) = Throw (Js.TypeError "Assignment to constant variable.")
  /\ exchange_calls (snd (executeTrade signal st)) = exchange_calls st
  /\ ledger (snd (executeTrade signal st)) = ledger st.
Proof.
  intros Hconf Hday Hsize Htype Hprice Htruthy.
  destruct (executeTrade_limit_with_price signal st userSettings Hconf Hday Hsize)
    as [log Hrun].
  - unfold limit_with_price. rewrite Htype, Hprice. cbn. now rewrite Htruthy.
  - rewrite Hrun. repeat split.
Qed.

(** C8: when the exchange answers the order with a status outside
    200-299, [executeTrade] throws an error of kind ExchangeError whose
    message carries the status and the body of the response, and the
    ledger is left as it was: the one effect is the request itself. *)
Theorem executeTrade_exchange_rejects
    (signal : TradeSignal.t) (st : State) (userSettings : UserSettings.t)
    (r : OrderResponse) :
  configured signal userSettings ->
  within_daily_limit signal userSettings st ->
  within_position_size signal userSettings ->
  limit_with_price signal = false ->
  post_order w (order_request signal userSettings) = Some r ->
  ok r = false ->
  let thrown := Js.Error ("Binance API error: " ++ Js.string_of_Z (status r)
                          ++ " " ++ text r) in
  exists st',
    executeTrade signal st = (Throw thrown, st')
    /\ error_kind thrown = Some ExchangeError
    /\ ledger st' = ledger st
    /\ exchange_calls st'
       = (exchange_calls st ++ [order_request signal userSettings])%list.
Proof.
  intros Hconf Hday Hsize Hbranch Hpost Hok thrown.
  destruct (executeTrade_reaches_exchange signal st userSettings Hconf Hday Hsize Hbranch)
    as (log & Hrun & _).
  rewrite Hpost in Hrun. cbn zeta in Hrun.
  rewrite after_response_rejected in Hrun by exact Hok.
  eexists. split; [exact Hrun|].
  split; [apply error_kind_exchange|]. split; reflexivity.
Qed.

(** C6: a market order that the exchange accepts without reporting any
    fill ([fills] missing or empty) is stored with both protective
    prices null and with [auto_tp_sl_enabled] copied from the settings;
    the response carries null prices too, and the only request of the
    run is the order itself, so no protective order is placed. *)
Theorem executeTrade_without_fills
    (signal : TradeSignal.t) (st : State) (userSettings : UserSettings.t)
    (r : OrderResponse) (o : BinanceOrder.t) :
  configured signal userSettings ->
  within_daily_limit signal userSettings st ->
  within_position_size signal userSettings ->
  TradeSignal.type signal = MARKET ->
  post_order w (order_request signal userSettings) = Some r ->
  ok r = true ->
  json r = Some o ->
  has_fills o = false ->
  insert_error w (orderData userSettings signal o None None) = None ->
  exists saved log,
    executeTrade signal st
    = (Return (mkTradeResponse true (Some saved) o
                 (UserSettings.auto_tp_sl_enabled userSettings) None None),
       mkState (ledger st ++ [saved])
               (exchange_calls st ++ [order_request signal userSettings]) log)
    /\ Order.stop_loss_price (row saved) = None
    /\ Order.take_profit_price (row saved) = None
    /\ Order.auto_tp_sl_enabled (row saved)
       = UserSettings.auto_tp_sl_enabled userSettings.
Proof.
  intros Hconf Hday Hsize Hmarket Hpost Hok Hjson Hfills Hins.
  destruct (executeTrade_reaches_exchange signal st userSettings Hconf Hday Hsize
              (market_skips_branch signal Hmarket)) as (log & Hrun & _).
  rewrite Hpost in Hrun. cbn zeta in Hrun.
  assert (Hnone : protective_prices userSettings signal o = (None, None)).
  { unfold protective_prices. rewrite Hfills, andb_false_r. reflexivity. }
  destruct (after_response_accepted userSettings signal r o
              (mkState (ledger st)
                 (exchange_calls st ++ [order_request signal userSettings]) log)
              Hok Hjson) as (extra & log' & Hafter & Hextra).
  { rewrite Hnone. exact Hins. }
  rewrite Hnone in Hafter, Hextra. cbn [fst snd ledger exchange_calls] in Hafter, Hextra.
  rewrite Hextra in Hafter.
  - rewrite app_nil_r in Hafter. rewrite Hafter in Hrun.
    eexists _, _. split; [exact Hrun|]. repeat split.
  - unfold places_protective. cbn. apply andb_false_r.
Qed.

(** C9: when the query that counts today's orders fails, the failure is
    logged and the daily-limit test is skipped: whatever the ledger
    holds (so also when the user's orders of the day already reach
    [max_daily_trades]), a request that passes the other checks is
    signed and sent to the exchange. *)
Theorem executeTrade_count_query_fails
    (signal : TradeSignal.t) (st : State) (userSettings : UserSettings.t)
    (e : string) :
  today_trades_error w = Some e ->
  configured signal userSettings ->
  within_position_size signal userSettings ->
  limit_with_price signal = false ->
  In "Error checking daily trades:" (console (snd (executeTrade signal st)))
  /\ exists later,
       exchange_calls (snd (executeTrade signal st))
       = exchange_calls st ++ order_request signal userSettings :: later.
Proof.
  intros Herr Hconf Hsize Hbranch.
  destruct (executeTrade_reaches_exchange signal st userSettings Hconf) as (log & Hrun & Hlog);
    trivial.
  { intros Hnone. rewrite Herr in Hnone. discriminate. }
  assert (Hin : In "Error checking daily trades:" log).
  { apply Hlog. rewrite Herr. discriminate. }
  rewrite Hrun. cbn zeta.
  destruct (post_order w (order_request signal userSettings)) as [r|].
  - match goal with
    | |- context [after_response ?u ?s ?x ?t] =>
        destruct (after_response_extends u s x t) as (_ & [calls Hcalls] & [logs Hlogs])
    end.
    rewrite Hcalls, Hlogs. cbn [exchange_calls console]. split.
    + apply in_or_app. now left.
    + exists calls. now rewrite <- app_assoc.
  - cbn. split; [exact Hin|]. now exists [].
Qed.

Lemma protective_prices_with_fill (userSettings : UserSettings.t)
    (signal : TradeSignal.t) (o : BinanceOrder.t) (f : Fill.t) (fs : list Fill.t) :
  Js.truthy_bool (UserSettings.auto_tp_sl_enabled userSettings) = true ->
  BinanceOrder.fills o = Some (f :: fs) ->
  protective_prices userSettings signal o
  = (Some (fst (levels (TradeSignal.side signal) (parseFloat (Fill.price f))
                       (Js.ToNumber (slPercent signal userSettings))
                       (Js.ToNumber (tpPercent signal userSettings)))),
     Some (snd (levels (TradeSignal.side signal) (parseFloat (Fill.price f))
                       (Js.ToNumber (slPercent signal userSettings))
                       (Js.ToNumber (tpPercent signal userSettings))))).
Proof.
  intros Hon Hfills. unfold protective_prices, has_fills, fill0, levels.
  rewrite Hon, Hfills. cbn. now destruct (TradeSignal.side signal).
Qed.

(** An accepted order with a fill, on an account with auto TP/SL on:
    the levels computed from the first fill's price are stored and
    returned. *)
Lemma executeTrade_accepted_with_fill
    (signal : TradeSignal.t) (st : State) (userSettings : UserSettings.t)
    (r : OrderResponse) (o : BinanceOrder.t) (f : Fill.t) (fs : list Fill.t)
    (sl tp : float) :
  configured signal userSettings ->
  within_daily_limit signal userSettings st ->
  within_position_size signal userSettings ->
  limit_with_price signal = false ->
  post_order w (order_request signal userSettings) = Some r ->
  ok r = true ->
  json r = Some o ->
  Js.truthy_bool (UserSettings.auto_tp_sl_enabled userSettings) = true ->
  BinanceOrder.fills o = Some (f :: fs) ->
  levels (TradeSignal.side signal) (parseFloat (Fill.price f))
         (Js.ToNumber (slPercent signal userSettings))
         (Js.ToNumber (tpPercent signal userSettings)) = (sl, tp) ->
  insert_error w (orderData userSettings signal o (Some sl) (Some tp)) = None ->
  exists saved st',
    executeTrade signal st
    = (Return (mkTradeResponse true (Some saved) o
                 (UserSettings.auto_tp_sl_enabled userSettings) (Some sl) (Some tp)),
       st')
    /\ In saved (ledger st')
    /\ Order.stop_loss_price (row saved) = Some sl
    /\ Order.take_profit_price (row saved) = Some tp.
Proof.
  intros Hconf Hday Hsize Hbranch Hpost Hok Hjson Hon Hfills Hlevels Hins.
  destruct (executeTrade_reaches_exchange signal st userSettings Hconf Hday Hsize Hbranch)
    as (log & Hrun & _).
  rewrite Hpost in Hrun. cbn zeta in Hrun.
  assert (Hprices : protective_prices userSettings signal o = (Some sl, Some tp)).
  { rewrite (protective_prices_with_fill _ _ _ _ _ Hon Hfills), Hlevels. reflexivity. }
  destruct (after_response_accepted userSettings signal r o
              (mkState (ledger st)
                 (exchange_calls st ++ [order_request signal userSettings]) log)
              Hok Hjson) as (extra & log' & Hafter & _).
  { rewrite Hprices. exact Hins. }
  rewrite Hprices in Hafter. cbn [fst snd ledger] in Hafter.
  rewrite Hafter in Hrun.
  eexists _, _. split; [exact Hrun|]. cbn [ledger row].
  split; [apply in_or_app; right; now left|]. split; reflexivity.
Qed.

(** C4: with auto TP/SL on, a first fill at price P, a stop-loss
    percentage of 5 and a take-profit percentage of 10, an accepted
    order is stored and answered with stopLossPrice = P * 0.95 and
    takeProfitPrice = P * 1.10 for a BUY, and stopLossPrice = P * 1.05 and
    takeProfitPrice = P * 0.90 for a SELL: the product of two doubles,
    with no rounding step after it. *)
Theorem executeTrade_protective_levels
    (signal : TradeSignal.t) (st : State) (userSettings : UserSettings.t)
    (r : OrderResponse) (o : BinanceOrder.t) (f : Fill.t) (fs : list Fill.t) :
  configured signal userSettings ->
  within_daily_limit signal userSettings st ->
  within_position_size signal userSettings ->
  limit_with_price signal = false ->
  post_order w (order_request signal userSettings) = Some r ->
  ok r = true ->
  json r = Some o ->
  Js.truthy_bool (UserSettings.auto_tp_sl_enabled userSettings) = true ->
  BinanceOrder.fills o = Some (f :: fs) ->
  Js.ToNumber (slPercent signal userSettings) = 5%float ->
  Js.ToNumber (tpPercent signal userSettings) = 10%float ->
  let P := parseFloat (Fill.price f) in
  let sl := fst (levels_5_10 (TradeSignal.side signal) P) in
  let tp := snd (levels_5_10 (TradeSignal.side signal) P) in
  insert_error w (orderData userSettings signal o (Some sl) (Some tp)) = None ->
  exists saved st',
    executeTrade signal st
    = (Return (mkTradeResponse true (Some saved) o
                 (UserSettings.auto_tp_sl_enabled userSettings) (Some sl) (Some tp)),
       st')
    /\ In saved (ledger st')
    /\ Order.stop_loss_price (row saved) = Some sl
    /\ Order.take_profit_price (row saved) = Some tp.
Proof.
  intros Hconf Hday Hsize Hbranch Hpost Hok Hjson Hon Hfills Hsl Htp P sl tp Hins.
  apply (executeTrade_accepted_with_fill signal st userSettings r o f fs); trivial.
  rewrite Hsl, Htp. subst sl tp P.
  now destruct (TradeSignal.side signal).
Qed.

(** C5, as the code has it: the percentage of each leg is the request's
    own value when that is given and is neither zero nor NaN, and the
    account default otherwise; the levels stored and returned for an
    accepted order are computed from the percentages so chosen. *)
Theorem executeTrade_percentages_in_force
    (signal : TradeSignal.t) (st : State) (userSettings : UserSettings.t)
    (r : OrderResponse) (o : BinanceOrder.t) (f : Fill.t) (fs : list Fill.t) :
  configured signal userSettings ->
  within_daily_limit signal userSettings st ->
  within_position_size signal userSettings ->
  limit_with_price signal = false ->
  post_order w (order_request signal userSettings) = Some r ->
  ok r = true ->
  json r = Some o ->
  Js.truthy_bool (UserSettings.auto_tp_sl_enabled userSettings) = true ->
  BinanceOrder.fills o = Some (f :: fs) ->
  let slPct := percent_in_force (TradeSignal.stopLossPercent signal)
                 (UserSettings.default_stop_loss_percent userSettings) in
  let tpPct := percent_in_force (TradeSignal.takeProfitPercent signal)
                 (UserSettings.default_take_profit_percent userSettings) in
  let prices := levels (TradeSignal.side signal) (parseFloat (Fill.price f))
                  (Js.ToNumber slPct) (Js.ToNumber tpPct) in
  insert_error w (orderData userSettings signal o
                    (Some (fst prices)) (Some (snd prices))) = None ->
  exists saved st',
    executeTrade signal st
    = (Return (mkTradeResponse true (Some saved) o
                 (UserSettings.auto_tp_sl_enabled userSettings)
                 (Some (fst prices)) (Some (snd prices))),
       st')
    /\ In saved (ledger st')
    /\ Order.stop_loss_price (row saved) = Some (fst prices)
    /\ Order.take_profit_price (row saved) = Some (snd prices).
Proof.
  intros Hconf Hday Hsize Hbranch Hpost Hok Hjson Hon Hfills slPct tpPct prices Hins.
  apply (executeTrade_accepted_with_fill signal st userSettings r o f fs); trivial.
  assert (Hsl : slPercent signal userSettings = slPct).
  { subst slPct. unfold slPercent, Js.or_num, Js.truthy_num, Js.truthy_number,
      percent_in_force.
    destruct (TradeSignal.stopLossPercent signal) as [v|]; [|reflexivity].
    now destruct (PrimFloat.is_zero v || PrimFloat.is_nan v). }
  assert (Htp : tpPercent signal userSettings = tpPct).
  { subst tpPct. unfold tpPercent, Js.or_num, Js.truthy_num, Js.truthy_number,
      percent_in_force.
    destruct (TradeSignal.takeProfitPercent signal) as [v|]; [|reflexivity].
    now destruct (PrimFloat.is_zero v || PrimFloat.is_nan v). }
  rewrite Hsl, Htp. apply surjective_pairing.
Qed.

(** C7: the trigger of a position.  For a BUY the stop-loss fires when
    the current price is at or below the stop-loss price, and otherwise
    the take-profit fires when the price is at or above the take-profit
    price; for a SELL the comparisons are the other way round.  The
    stop-loss test comes first, so it wins when both tests hold, and
    one evaluation of a position adds at most one entry to the results,
    whose trigger type is the one this rule gives. *)
Theorem trigger_rule (userId : string) (position : LedgerRow) (currentPrice : float) :
  let sl := Js.ToNumber (Order.stop_loss_price (row position)) in
  let tp := Js.ToNumber (Order.take_profit_price (row position)) in
  (Order.side (row position) = "BUY" ->
     (Js.le currentPrice sl = true ->
        trigger_check position currentPrice = (true, "STOP_LOSS"))
     /\ (Js.le currentPrice sl = false -> Js.ge currentPrice tp = true ->
         trigger_check position currentPrice = (true, "TAKE_PROFIT"))
     /\ (Js.le currentPrice sl = false -> Js.ge currentPrice tp = false ->
         trigger_check position currentPrice = (false, "")))
  /\ (Order.side (row position) = "SELL" ->
     (Js.ge currentPrice sl = true ->
        trigger_check position currentPrice = (true, "STOP_LOSS"))
     /\ (Js.ge currentPrice sl = false -> Js.le currentPrice tp = true ->
         trigger_check position currentPrice = (true, "TAKE_PROFIT"))
     /\ (Js.ge currentPrice sl = false -> Js.le currentPrice tp = false ->
         trigger_check position currentPrice = (false, "")))
  /\ (forall results st,
        exists entries,
          fst (process_position userId position results st)
          = Return (results ++ entries)
          /\ (length entries <= 1)%nat
          /\ forall pos ty price close,
               In (Closed pos ty price close) entries ->
               trigger_check position price = (true, ty)).
Proof.
  intros sl tp. subst sl tp. split; [|split].
  - intros Hside. unfold trigger_check. rewrite Hside. cbn [String.eqb].
    repeat split; intros; repeat match goal with H : _ = _ |- _ => rewrite H end;
      reflexivity.
  - intros Hside. unfold trigger_check. rewrite Hside.
    repeat split; intros; repeat match goal with H : _ = _ |- _ => rewrite H end;
      reflexivity.
  - intros results st.
    unfold process_position, fetch_ticker, try_catch, bind, record_call, console_error,
      console_log, ret, throw.
    destruct (get_ticker w (Order.symbol (row position))) as [price|];
      cbv beta iota zeta.
    + destruct (trigger_check position (parseFloat_opt price)) as [[|] ty] eqn:Hcheck.
      * match goal with
        | |- context [executeTrade ?c ?t] =>
            destruct (executeTrade c t) as [[close|e] st']
        end.
        -- eexists. split; [reflexivity|]. split; [cbn; lia|].
           intros pos ty' price' close' [Hin|[]]. now inversion Hin; subst.
        -- eexists. split; [reflexivity|]. split; [cbn; lia|].
           intros pos ty' price' close' [Hin|[]]. discriminate.
      * exists []. rewrite app_nil_r. split; [reflexivity|]. split; [cbn; lia|].
        intros pos ty' price' close' [].
    + eexists. split; [reflexivity|]. split; [cbn; lia|].
      intros pos ty' price' close' [Hin|[]]. discriminate.
Qed.

Lemma utc_day_last_ms (d : Z) : utc_day (T23_59_59_999Z d) = d.
Proof.
  unfold utc_day, T23_59_59_999Z, ms_per_day.
  rewrite Z.div_add_l by lia. rewrite Z.div_small; lia.
Qed.

(** C2: what the code counts.  An order of the user created in the last
    millisecond of the current UTC day (23:59:59.999) lies within the
    day, before the start of the following one, and yet is not among
    the rows of the daily-count query: its upper bound is the literal
    23:59:59.999 taken exclusively. *)
Theorem daily_count_misses_last_millisecond
    (userId : string) (st : State) (r : LedgerRow) :
  In r (ledger st) ->
  Order.user_id (row r) = userId ->
  created_at r = T23_59_59_999Z (utc_day (now w)) ->
  today_trades_error w = None ->
  (T00_00_00_000Z (utc_day (now w)) <= created_at r
     < T00_00_00_000Z (utc_day (now w) + 1))
  /\ utc_day (created_at r) = utc_day (now w)
  /\ exists rows,
       select_today_trades userId (utc_day (now w)) st
       = (Return (mkQuery (Some (map id rows)) None), st)
       /\ ~ In r rows.
Proof.
  intros Hin Huser Hat Herr. split; [|split].
  - rewrite Hat. unfold T00_00_00_000Z, T23_59_59_999Z, ms_per_day. lia.
  - rewrite Hat. apply utc_day_last_ms.
  - unfold select_today_trades. rewrite Herr. eexists. split; [reflexivity|].
    intros Hsel. apply filter_In in Hsel. destruct Hsel as [_ Hsel].
    unfold today_filter in Hsel. rewrite Hat in Hsel.
    apply andb_prop in Hsel. destruct Hsel as [_ Hlt].
    apply Z.ltb_lt in Hlt. lia.
Qed.

(** [executeTrade] with auto-trading off, in full. *)
Lemma executeTrade_refuses_disabled
    (signal : TradeSignal.t) (st : State) (userSettings : UserSettings.t) :
  select_user_settings w (TradeSignal.userId signal)
    = mkQuery (Some userSettings) None ->
  Js.truthy_bool (UserSettings.auto_trading_enabled userSettings) = false ->
  executeTrade signal st
  = (Throw (Js.Error "Auto trading is disabled for this user"),
     mkState (ledger st) (exchange_calls st)
             (console st ++ ["Executing trade signal:"])).
Proof.
  intros Hq Hoff. unfold executeTrade, bind, console_log.
  rewrite Hq. cbn [isSome error data]. rewrite Hoff. reflexivity.
Qed.

(** [executeTrade] with the day's orders at the cap, in full. *)
Lemma executeTrade_refuses_daily_cap
    (signal : TradeSignal.t) (st : State) (userSettings : UserSettings.t) :
  configured signal userSettings ->
  today_trades_error w = None ->
  Js.ToInteger (UserSettings.max_daily_trades userSettings)
    <= Z.of_nat (length (todays_orders (TradeSignal.userId signal) st)) ->
  executeTrade signal st
  = (Throw (Js.Error "Daily trade limit reached"),
     mkState (ledger st) (exchange_calls st)
             (console st ++ ["Executing trade signal:"])).
Proof.
  intros (Hq & Hon & Hapi & Hsec) Herr Hcap.
  unfold executeTrade, bind at 1, console_log.
  rewrite Hq. cbn [isSome error data]. rewrite Hon, Hapi, Hsec. cbn [negb orb].
  unfold todays_orders in Hcap.
  unfold bind, select_today_trades, ret. rewrite Herr.
  cbn [isSome error data ledger]. rewrite length_map.
  destruct (Z.geb_spec (Z.of_nat (length (filter
              (today_filter (TradeSignal.userId signal)
                 (T00_00_00_000Z (utc_day (now w)))
                 (T23_59_59_999Z (utc_day (now w)))) (ledger st))))
             (Js.ToInteger (UserSettings.max_daily_trades userSettings))); [|lia].
  reflexivity.
Qed.

(** One turn of the loop when [executeTrade] refuses the closing trade
    in every state with the present ledger. *)
Lemma process_position_refused (userId msg : string) (position : LedgerRow)
    (results : list ResultEntry) (st : State) :
  (forall st0, ledger st0 = ledger st ->
     executeTrade (closeSignal userId position) st0
     = (Throw (Js.Error msg),
        mkState (ledger st0) (exchange_calls st0)
                (console st0 ++ ["Executing trade signal:"]))) ->
  exists st',
    process_position userId position results st
    = (Return (results ++ refused_entry msg position), st')
    /\ ledger st' = ledger st
    /\ filter is_order_post (exchange_calls st')
       = filter is_order_post (exchange_calls st).
Proof.
  intros Hrefuse.
  unfold process_position, refused_entry, fetch_ticker, try_catch, bind, record_call,
    console_error, console_log, ret, throw.
  destruct (get_ticker w (Order.symbol (row position))) as [price|];
    cbv beta iota zeta.
  - destruct (trigger_check position (parseFloat_opt price)) as [[|] ty]; cbn [fst].
    + rewrite Hrefuse by reflexivity.
      eexists. split; [reflexivity|]. cbn [ledger exchange_calls].
      split; [reflexivity|]. rewrite filter_app. cbn. apply app_nil_r.
    + eexists. rewrite app_nil_r. split; [reflexivity|]. cbn [ledger exchange_calls].
      split; [reflexivity|]. rewrite filter_app. cbn. apply app_nil_r.
  - eexists. split; [reflexivity|]. cbn [ledger exchange_calls].
    split; [reflexivity|]. rewrite filter_app. cbn. apply app_nil_r.
Qed.

Lemma for_positions_refused (userId msg : string) (L : list LedgerRow) :
  (forall position st0, ledger st0 = L ->
     executeTrade (closeSignal userId position) st0
     = (Throw (Js.Error msg),
        mkState (ledger st0) (exchange_calls st0)
                (console st0 ++ ["Executing trade signal:"]))) ->
  forall positions results st,
    ledger st = L ->
    exists st',
      for_positions userId positions results st
      = (Return (results ++ flat_map (refused_entry msg) positions), st')
      /\ ledger st' = L
      /\ filter is_order_post (exchange_calls st')
         = filter is_order_post (exchange_calls st).
Proof.
  intros Hrefuse positions.
  induction positions as [|position rest IH]; intros results st HL.
  - cbn. exists st. now rewrite app_nil_r.
  - cbn [for_positions flat_map]. unfold bind.
    destruct (process_position_refused userId msg position results st)
      as (st1 & Hstep & Hledger & Hcalls).
    { intros st0 H0. apply Hrefuse. now rewrite H0. }
    rewrite Hstep.
    destruct (IH (results ++ refused_entry msg position) st1) as (st' & Hrest & HL' & Hcalls');
      [now rewrite Hledger|].
    exists st'. rewrite Hrest, app_assoc. split; [reflexivity|].
    split; [exact HL'|]. now rewrite Hcalls'.
Qed.

(** C10: closing trades go through [executeTrade] and meet its checks.
    For a user with auto TP/SL on, when auto-trading is off, or when it
    is on and the day's orders have reached the cap, every position
    whose level is crossed gets a failure entry with the message of
    the check that refused it; no order is sent to the exchange and
    the ledger is unchanged, so the same positions are open at the next
    evaluation. *)
Theorem protective_exits_meet_the_checks
    (userId : string) (st : State) (userSettings : UserSettings.t) (msg : string) :
  select_user_settings w userId = mkQuery (Some userSettings) None ->
  Js.truthy_bool (UserSettings.auto_tp_sl_enabled userSettings) = true ->
  positions_error w = None ->
  (Js.truthy_bool (UserSettings.auto_trading_enabled userSettings) = false
   /\ msg = "Auto trading is disabled for this user"%string)
  \/ (Js.truthy_bool (UserSettings.auto_trading_enabled userSettings) = true
      /\ Js.truthy_str (UserSettings.binance_api_key userSettings) = true
      /\ Js.truthy_str (UserSettings.binance_secret_key userSettings) = true
      /\ today_trades_error w = None
      /\ Js.ToInteger (UserSettings.max_daily_trades userSettings)
         <= Z.of_nat (length (todays_orders userId st))
      /\ msg = "Daily trade limit reached"%string) ->
  let open_positions := filter (position_filter userId) (ledger st) in
  exists results st',
    checkTakeProfitStopLoss userId st = (Return (Results results), st')
    /\ results = flat_map (refused_entry msg) open_positions
    /\ (forall position price,
          In position open_positions ->
          get_ticker w (Order.symbol (row position)) = Some price ->
          fst (trigger_check position (parseFloat_opt price)) = true ->
          In (Failed (id position) msg) results)
    /\ (forall pos ty price close, ~ In (Closed pos ty price close) results)
    /\ ledger st' = ledger st
    /\ filter is_order_post (exchange_calls st')
       = filter is_order_post (exchange_calls st).
Proof.
  intros Hq Hon Hpos Hgate open_positions.
  assert (Hrefuse : forall position st0, ledger st0 = ledger st ->
            executeTrade (closeSignal userId position) st0
            = (Throw (Js.Error msg),
               mkState (ledger st0) (exchange_calls st0)
                       (console st0 ++ ["Executing trade signal:"]))).
  { intros position st0 H0.
    destruct Hgate as [(Hoff & ->) | (Htrade & Hapi & Hsec & Herr & Hcap & ->)].
    - now apply (executeTrade_refuses_disabled _ _ userSettings).
    - apply (executeTrade_refuses_daily_cap _ _ userSettings); trivial.
      + now repeat split.
      + unfold todays_orders in *. cbn [TradeSignal.userId closeSignal].
        now rewrite H0. }
  destruct (for_positions_refused userId msg (ledger st) Hrefuse open_positions [] st eq_refl)
    as (st' & Hloop & Hledger & Hcalls).
  exists (flat_map (refused_entry msg) open_positions), st'.
  split; [|split; [reflexivity|split; [|split; [|split; assumption]]]].
  - unfold checkTakeProfitStopLoss. rewrite Hq. cbn [isSome error data].
    rewrite Hon. cbn [negb]. unfold bind, select_positions. rewrite Hpos.
    cbn [isSome error data]. fold open_positions. now rewrite Hloop.
  - intros position price Hin Hticker Htrig.
    apply in_flat_map. exists position. split; [exact Hin|].
    unfold refused_entry. rewrite Hticker, Htrig. now left.
  - intros pos ty price close Hin.
    apply in_flat_map in Hin. destruct Hin as (position & _ & Hin).
    unfold refused_entry in Hin.
    destruct (get_ticker w _) as [p|];
      [destruct (fst (trigger_check position (parseFloat_opt p)))|];
      cbn in Hin; intuition discriminate.
Qed.

(** *** Further properties of [executeTrade] *)

(** [executeTrade] when the settings query reports an error or no row. *)
Lemma executeTrade_refuses_unknown_user (signal : TradeSignal.t) (st : State) :
  isSome (error (select_user_settings w (TradeSignal.userId signal))) = true
  \/ data (select_user_settings w (TradeSignal.userId signal)) = None ->
  executeTrade signal st
  = (Throw (Js.Error "User settings not found"),
     mkState (ledger st) (exchange_calls st)
             (console st ++ ["Executing trade signal:"])).
Proof.
  intros Hmiss. unfold executeTrade, bind, console_log.
  destruct (select_user_settings w (TradeSignal.userId signal)) as [d e].
  cbn [error data] in *.
  destruct Hmiss as [He | Hd].
  - rewrite He. reflexivity.
  - rewrite Hd. now destruct (isSome e).
Qed.

(** [executeTrade] when a credential is missing. *)
Lemma executeTrade_refuses_no_credentials
    (signal : TradeSignal.t) (st : State) (userSettings : UserSettings.t) :
  select_user_settings w (TradeSignal.userId signal)
    = mkQuery (Some userSettings) None ->
  Js.truthy_bool (UserSettings.auto_trading_enabled userSettings) = true ->
  Js.truthy_str (UserSettings.binance_api_key userSettings)
  && Js.truthy_str (UserSettings.binance_secret_key userSettings) = false ->
  executeTrade signal st
  = (Throw (Js.Error "Binance API credentials not configured"),
     mkState (ledger st) (exchange_calls st)
             (console st ++ ["Executing trade signal:"])).
Proof.
  intros Hq Hon Hcred. unfold executeTrade, bind, console_log.
  rewrite Hq. cbn [isSome error data]. rewrite Hon. cbn [negb].
  rewrite <- negb_andb, Hcred. reflexivity.
Qed.

(** [executeTrade] when the notional value is above the cap. *)
Lemma executeTrade_refuses_size
    (signal : TradeSignal.t) (st : State) (userSettings : UserSettings.t) :
  configured signal userSettings ->
  within_daily_limit signal userSettings st ->
  Js.gt (TradeSignal.quantity signal
         * Js.ToNumber (Js.or_num (TradeSignal.price signal) (Some PrimFloat.zero)))%float
        (Js.ToNumber (UserSettings.max_position_size userSettings)) = true ->
  exists log,
    executeTrade signal st
    = (Throw (Js.Error "Trade size exceeds maximum position size"),
       mkState (ledger st) (exchange_calls st) log).
Proof.
  intros (Hq & Hon & Hapi & Hsec) Hday Hsize.
  unfold executeTrade, bind at 1, console_log.
  rewrite Hq. cbn [isSome error data]. rewrite Hon, Hapi, Hsec. cbn [negb orb].
  unfold within_daily_limit, todays_orders in Hday.
  unfold bind, select_today_trades, console_error, console_log, ret, throw.
  rewrite Hsize.
  destruct (today_trades_error w) as [e|] eqn:Herr; cbn.
  - eexists. reflexivity.
  - specialize (Hday eq_refl). rewrite length_map.
    destruct (Z.geb_spec (Z.of_nat (length (filter
                (today_filter (TradeSignal.userId signal)
                   (T00_00_00_000Z (utc_day (now w)))
                   (T23_59_59_999Z (utc_day (now w)))) (ledger st))))
               (Js.ToInteger (UserSettings.max_daily_trades userSettings))); [lia|].
    eexists. reflexivity.
Qed.


(** [placeTPSLOrders] in full, for settings that hold a secret key: the
    take-profit request goes out first; the stop-loss request follows
    only if that [fetch] resolved; the responses are not looked at. *)
Lemma placeTPSLOrders_run (userSettings : UserSettings.t) (o : BinanceOrder.t)
    (sl tp : float) (st : State) (k : string) :
  UserSettings.binance_secret_key userSettings = Some k ->
  placeTPSLOrders userSettings o sl tp st
  = match post_order w (take_profit_request userSettings o tp) with
    | None =>
        (Throw (Js.TypeError "fetch failed"),
         mkState (ledger st)
                 (exchange_calls st ++ [take_profit_request userSettings o tp])
                 (console st))
    | Some _ =>
        (match post_order w (stop_loss_request userSettings o sl) with
         | None => Throw (Js.TypeError "fetch failed")
         | Some _ => Return tt
         end,
         mkState (ledger st)
                 (exchange_calls st ++ [take_profit_request userSettings o tp;
                                        stop_loss_request userSettings o sl])
                 (console st))
    end.
Proof.
  intros Hk.
  unfold placeTPSLOrders, take_profit_request, stop_loss_request, opposite, secret_of,
    bind, createHmac, fetch_order, record_call, throw, ret.
  rewrite Hk. cbn.
  destruct (post_order w _); [|reflexivity].
  cbn. rewrite <- app_assoc. cbn.
  destruct (post_order w _); reflexivity.
Qed.

(** Every request [placeTPSLOrders] sends is an order request. *)
Lemma placeTPSLOrders_posts (userSettings : UserSettings.t) (o : BinanceOrder.t)
    (sl tp : float) (st : State) :
  exists res extra,
    placeTPSLOrders userSettings o sl tp st
    = (res, mkState (ledger st) (exchange_calls st ++ extra) (console st))
    /\ forallb is_order_post extra = true.
Proof.
  destruct (UserSettings.binance_secret_key userSettings) as [k|] eqn:Hk.
  - rewrite (placeTPSLOrders_run _ _ _ _ _ k Hk).
    destruct (post_order w (take_profit_request userSettings o tp)).
    + eexists _, _. split; reflexivity.
    + eexists _, _. split; reflexivity.
  - unfold placeTPSLOrders, bind, createHmac, throw. rewrite Hk.
    exists (Throw (Js.TypeError "The key argument must be of type string")), [].
    rewrite app_nil_r. split; [now destruct st | reflexivity].
Qed.

(** What [after_response] does to the requests and to the ledger: the
    requests it adds are order requests, and it adds no row or the one
    row of an accepted order whose write succeeded. *)
Lemma after_response_effect (userSettings : UserSettings.t)
    (signal : TradeSignal.t) (r : OrderResponse) (st : State) :
  exists res rows calls log,
    after_response userSettings signal r st
    = (res, mkState (ledger st ++ rows) (exchange_calls st ++ calls) log)
    /\ forallb is_order_post calls = true
    /\ (rows = []
        \/ exists o, ok r = true /\ json r = Some o
                     /\ rows = [saved_row signal userSettings o (ledger st)]).
Proof.
  unfold after_response.
  destruct (ok r) eqn:Hok; cbn [negb].
  2:{ exists (Throw (Js.Error ("Binance API error: " ++ Js.string_of_Z (status r)
                               ++ " " ++ text r))), [], [],
        (console st ++ ["Binance API error:"]).
      rewrite !app_nil_r. repeat split. now left. }
  unfold bind at 1, response_json.
  destruct (json r) as [o|] eqn:Hjson.
  2:{ exists (Throw (Js.SyntaxError "Unexpected token in JSON")), [], [], (console st).
      rewrite !app_nil_r. cbn. split; [now destruct st|]. split; [reflexivity|now left]. }
  unfold ret at 1, bind at 1, console_log at 1, bind at 1.
  unfold saved_row.
  destruct (protective_prices userSettings signal o) as [sl tp] eqn:Hpp.
  unfold insert_order.
  destruct (insert_error w _) as [e|] eqn:Hins.
  { cbn. eexists _, [], [], _. rewrite !app_nil_r.
    split; [reflexivity|]. split; [reflexivity|now left]. }
  cbn [isSome error data ledger exchange_calls console]. unfold bind at 1.
  destruct (Js.truthy_bool (UserSettings.auto_tp_sl_enabled userSettings)
            && String.eqb (BinanceOrder.status o) "FILLED"
            && Js.truthy_num sl && Js.truthy_num tp).
  - unfold try_catch.
    match goal with
    | |- context [placeTPSLOrders ?u ?b ?x ?y ?s] =>
        destruct (placeTPSLOrders_posts u b x y s) as (res & extra & Hrun & Hposts);
        rewrite Hrun
    end.
    destruct res; cbn; eexists _, [_], extra, _;
      (split; [reflexivity|]); (split; [exact Hposts|]);
      right; exists o; rewrite Hpp; now repeat split.
  - cbn. eexists _, [_], [], _. rewrite app_nil_r.
    split; [reflexivity|]. split; [reflexivity|].
    right. exists o. rewrite Hpp. now repeat split.
Qed.

(** What [executeTrade] does to the requests and to the ledger, on every
    path.  Requests are sent only past the five checks, the first being
    the order itself and all of them order requests; the ledger gains no
    row, or the one row of the accepted order. *)
Lemma executeTrade_effect (signal : TradeSignal.t) (st : State) :
  exists res rows calls log,
    executeTrade signal st
    = (res, mkState (ledger st ++ rows) (exchange_calls st ++ calls) log)
    /\ forallb is_order_post calls = true
    /\ (calls = [] /\ rows = []
        \/ exists userSettings later,
             configured signal userSettings
             /\ within_daily_limit signal userSettings st
             /\ within_position_size signal userSettings
             /\ limit_with_price signal = false
             /\ calls = order_request signal userSettings :: later
             /\ (rows = []
                 \/ exists r o,
                      post_order w (order_request signal userSettings) = Some r
                      /\ ok r = true /\ json r = Some o
                      /\ rows = [saved_row signal userSettings o (ledger st)])).
Proof.
  assert (Hquiet : forall e log,
             executeTrade signal st
             = (Throw e, mkState (ledger st) (exchange_calls st) log) ->
             exists res rows calls log',
               executeTrade signal st
               = (res, mkState (ledger st ++ rows) (exchange_calls st ++ calls) log')
               /\ forallb is_order_post calls = true
               /\ (calls = [] /\ rows = []
                   \/ exists userSettings later,
                        configured signal userSettings
                        /\ within_daily_limit signal userSettings st
                        /\ within_position_size signal userSettings
                        /\ limit_with_price signal = false
                        /\ calls = order_request signal userSettings :: later
                        /\ (rows = []
                            \/ exists r o,
                                 post_order w (order_request signal userSettings) = Some r
                                 /\ ok r = true /\ json r = Some o
                                 /\ rows = [saved_row signal userSettings o (ledger st)]))).
  { intros e log Hrun. exists (Throw e), [], [], log. rewrite !app_nil_r.
    split; [exact Hrun|]. split; [reflexivity|]. left. now split. }
  destruct (select_user_settings w (TradeSignal.userId signal)) as [d e] eqn:Hq.
  destruct e as [e|].
  { eapply Hquiet, executeTrade_refuses_unknown_user. left. now rewrite Hq. }
  destruct d as [userSettings|].
  2:{ eapply Hquiet, executeTrade_refuses_unknown_user. right. now rewrite Hq. }
  destruct (Js.truthy_bool (UserSettings.auto_trading_enabled userSettings)) eqn:Hon.
  2:{ eapply Hquiet, executeTrade_refuses_disabled; eassumption. }
  destruct (Js.truthy_str (UserSettings.binance_api_key userSettings)
            && Js.truthy_str (UserSettings.binance_secret_key userSettings)) eqn:Hcred.
  2:{ eapply Hquiet, executeTrade_refuses_no_credentials; eassumption. }
  apply andb_prop in Hcred. destruct Hcred as [Hapi Hsec].
  assert (Hconf : configured signal userSettings) by now repeat split.
  assert (Hday : within_daily_limit signal userSettings st
                 \/ (today_trades_error w = None
                     /\ Js.ToInteger (UserSettings.max_daily_trades userSettings)
                        <= Z.of_nat (length (todays_orders (TradeSignal.userId signal) st)))).
  { unfold within_daily_limit.
    destruct (today_trades_error w); [left; discriminate|].
    destruct (Z.lt_ge_cases
                (Z.of_nat (length (todays_orders (TradeSignal.userId signal) st)))
                (Js.ToInteger (UserSettings.max_daily_trades userSettings)));
      [left; trivial | right; now split]. }
  destruct Hday as [Hday | [Herr Hcap]].
  2:{ eapply Hquiet, executeTrade_refuses_daily_cap; eassumption. }
  destruct (Js.gt (TradeSignal.quantity signal
                   * Js.ToNumber (Js.or_num (TradeSignal.price signal)
                                            (Some PrimFloat.zero)))%float
                  (Js.ToNumber (UserSettings.max_position_size userSettings)))
    eqn:Hsize.
  { destruct (executeTrade_refuses_size signal st userSettings Hconf Hday Hsize)
      as [log Hrun].
    eapply Hquiet, Hrun. }
  destruct (limit_with_price signal) eqn:Hbranch.
  { destruct (executeTrade_limit_with_price signal st userSettings Hconf Hday Hsize Hbranch)
      as [log Hrun].
    eapply Hquiet, Hrun. }
  destruct (executeTrade_reaches_exchange signal st userSettings Hconf Hday Hsize Hbranch)
    as (log & Hrun & _).
  rewrite Hrun. cbn zeta.
  destruct (post_order w (order_request signal userSettings)) as [r|] eqn:Hpost.
  - match goal with
    | |- context [after_response ?u ?s ?x ?t] =>
        destruct (after_response_effect u s x t)
          as (res & rows & calls & log' & Hafter & Hposts & Hrows);
        rewrite Hafter
    end.
    cbn [ledger exchange_calls] in *.
    exists res, rows, (order_request signal userSettings :: calls), log'.
    split; [now rewrite <- app_assoc|]. split; [cbn; exact Hposts|].
    right. exists userSettings, calls. repeat split; trivial.
    destruct Hrows as [-> | (o & Hok & Hjson & ->)]; [now left|].
    right. exists r, o. now repeat split.
  - eexists _, [], [order_request signal userSettings], _. rewrite app_nil_r.
    split; [reflexivity|]. split; [reflexivity|].
    right. exists userSettings, []. repeat split; trivial. now left.
Qed.


(** [executeTrade_reaches_exchange] with the console spelled out. *)
Lemma executeTrade_sends_order
    (signal : TradeSignal.t) (st : State) (userSettings : UserSettings.t) :
  configured signal userSettings ->
  within_daily_limit signal userSettings st ->
  within_position_size signal userSettings ->
  limit_with_price signal = false ->
  executeTrade signal st =
    (let st1 := mkState (ledger st)
                        (exchange_calls st ++ [order_request signal userSettings])
                        (console st ++ checks_log) in
     match post_order w (order_request signal userSettings) with
     | Some r => after_response userSettings signal r st1
     | None => (Throw (Js.TypeError "fetch failed"), st1)
     end).
Proof.
  intros (Hq & Hon & Hapi & Hsec) Hday Hsize Hbranch.
  destruct (truthy_str_some _ Hsec) as [k Hk].
  unfold executeTrade, bind at 1, console_log.
  rewrite Hq. cbn [isSome error data]. rewrite Hon, Hapi, Hsec. cbn [negb orb].
  unfold within_daily_limit, todays_orders in Hday.
  unfold within_position_size in Hsize. unfold limit_with_price in Hbranch.
  unfold bind, select_today_trades, console_error, console_log, ret, fetch_order,
    record_call, createHmac, checks_log.
  rewrite Hsize, Hbranch, Hk.
  unfold order_request, secret_of. rewrite Hk.
  destruct (today_trades_error w) as [e|] eqn:Herr; cbn.
  - rewrite <- app_assoc. cbn. destruct (post_order w _); reflexivity.
  - specialize (Hday eq_refl). rewrite length_map.
    destruct (Z.geb_spec (Z.of_nat (length (filter
                (today_filter (TradeSignal.userId signal)
                   (T00_00_00_000Z (utc_day (now w)))
                   (T23_59_59_999Z (utc_day (now w)))) (ledger st))))
               (Js.ToInteger (UserSettings.max_daily_trades userSettings))); [lia|].
    destruct (post_order w _); reflexivity.
Qed.

(** X1: without a settings row for the user (the query reports an error
    or returns no row), [executeTrade] throws "User settings not found",
    a ConfigurationError; nothing is sent and nothing is stored. *)
Theorem executeTrade_settings_not_found (signal : TradeSignal.t) (st : State) :
  isSome (error (select_user_settings w (TradeSignal.userId signal))) = true
  \/ data (select_user_settings w (TradeSignal.userId signal)) = None ->
  fst (executeTrade signal st) = Throw (Js.Error "User settings not found")
  /\ error_kind (Js.Error "User settings not found") = Some ConfigurationError
  /\ exchange_calls (snd (executeTrade signal st)) = exchange_calls st
  /\ ledger (snd (executeTrade signal st)) = ledger st.
Proof.
  intros Hmiss. rewrite (executeTrade_refuses_unknown_user signal st Hmiss).
  repeat split.
Qed.

(** X2: with auto-trading on and the API key or the secret key missing
    (null or empty), [executeTrade] throws "Binance API credentials not
    configured", a ConfigurationError, before any request. *)
Theorem executeTrade_credentials_missing
    (signal : TradeSignal.t) (st : State) (userSettings : UserSettings.t) :
  select_user_settings w (TradeSignal.userId signal)
    = mkQuery (Some userSettings) None ->
  Js.truthy_bool (UserSettings.auto_trading_enabled userSettings) = true ->
  Js.truthy_str (UserSettings.binance_api_key userSettings) = false
  \/ Js.truthy_str (UserSettings.binance_secret_key userSettings) = false ->
  fst (executeTrade signal st)
  = Throw (Js.Error "Binance API credentials not configured")
  /\ error_kind (Js.Error "Binance API credentials not configured")
     = Some ConfigurationError
  /\ exchange_calls (snd (executeTrade signal st)) = exchange_calls st
  /\ ledger (snd (executeTrade signal st)) = ledger st.
Proof.
  intros Hq Hon Hcred.
  rewrite (executeTrade_refuses_no_credentials signal st userSettings Hq Hon).
  - repeat split.
  - destruct Hcred as [-> | ->]; [reflexivity | apply andb_false_r].
Qed.

(** X3: when the count query succeeds and the user's orders of the day
    have reached [max_daily_trades], [executeTrade] throws "Daily trade
    limit reached", a LimitExceededError, before signing or sending
    anything. *)
Theorem executeTrade_daily_cap_reached
    (signal : TradeSignal.t) (st : State) (userSettings : UserSettings.t) :
  configured signal userSettings ->
  today_trades_error w = None ->
  Js.ToInteger (UserSettings.max_daily_trades userSettings)
    <= Z.of_nat (length (todays_orders (TradeSignal.userId signal) st)) ->
  fst (executeTrade signal st) = Throw (Js.Error "Daily trade limit reached")
  /\ error_kind (Js.Error "Daily trade limit reached") = Some LimitExceededError
  /\ exchange_calls (snd (executeTrade signal st)) = exchange_calls st
  /\ ledger (snd (executeTrade signal st)) = ledger st.
Proof.
  intros Hconf Herr Hcap.
  rewrite (executeTrade_refuses_daily_cap signal st userSettings Hconf Herr Hcap).
  repeat split.
Qed.

(** X4: an account whose [max_daily_trades] is null, zero or negative can
    place no order while the count query works: whatever the ledger
    holds, even nothing, every request is refused with "Daily trade
    limit reached". *)
Theorem executeTrade_without_cap_refuses_all
    (signal : TradeSignal.t) (st : State) (userSettings : UserSettings.t) :
  configured signal userSettings ->
  today_trades_error w = None ->
  UserSettings.max_daily_trades userSettings = None
  \/ (exists m, UserSettings.max_daily_trades userSettings = Some m /\ m <= 0) ->
  fst (executeTrade signal st) = Throw (Js.Error "Daily trade limit reached")
  /\ exchange_calls (snd (executeTrade signal st)) = exchange_calls st
  /\ ledger (snd (executeTrade signal st)) = ledger st.
Proof.
  intros Hconf Herr Hcap.
  rewrite (executeTrade_refuses_daily_cap signal st userSettings Hconf Herr).
  - repeat split.
  - destruct Hcap as [-> | (m & -> & Hm)]; cbn [Js.ToInteger]; lia.
Qed.

(** X5: when quantity times price (the price taken as 0 when absent) is
    above [max_position_size], [executeTrade] throws "Trade size exceeds
    maximum position size", a LimitExceededError, and sends nothing. *)
Theorem executeTrade_position_size_exceeded
    (signal : TradeSignal.t) (st : State) (userSettings : UserSettings.t) :
  configured signal userSettings ->
  within_daily_limit signal userSettings st ->
  Js.gt (TradeSignal.quantity signal
         * Js.ToNumber (Js.or_num (TradeSignal.price signal) (Some PrimFloat.zero)))%float
        (Js.ToNumber (UserSettings.max_position_size userSettings)) = true ->
  fst (executeTrade signal st)
  = Throw (Js.Error "Trade size exceeds maximum position size")
  /\ error_kind (Js.Error "Trade size exceeds maximum position size")
     = Some LimitExceededError
  /\ exchange_calls (snd (executeTrade signal st)) = exchange_calls st
  /\ ledger (snd (executeTrade signal st)) = ledger st.
Proof.
  intros Hconf Hday Hsize.
  destruct (executeTrade_refuses_size signal st userSettings Hconf Hday Hsize)
    as [log Hrun].
  rewrite Hrun. repeat split.
Qed.


(** X6: for every request that passes the checks and is not a LIMIT with
    a truthy price, the first request sent is a POST to the order
    endpoint with the user's API key; its body is the parameter string
    symbol, side, type, quantity, timestamp (in that order) followed by
    "&signature=" and the HMAC of exactly that string under the user's
    secret.  So a LIMIT request whose price is absent, 0 or NaN goes out
    with type=LIMIT and neither price nor timeInForce. *)
Theorem executeTrade_signed_request
    (signal : TradeSignal.t) (st : State) (userSettings : UserSettings.t)
    (k : string) :
  configured signal userSettings ->
  within_daily_limit signal userSettings st ->
  within_position_size signal userSettings ->
  Js.truthy_num (TradeSignal.price signal) = false
  \/ TradeSignal.type signal = MARKET ->
  UserSettings.binance_secret_key userSettings = Some k ->
  let qs := ("symbol=" ++ TradeSignal.symbol signal
             ++ "&side=" ++ Side_str (TradeSignal.side signal)
             ++ "&type=" ++ OrderType_str (TradeSignal.type signal)
             ++ "&quantity=" ++ Number_toString (TradeSignal.quantity signal)
             ++ "&timestamp=" ++ Js.string_of_Z (now w))%string in
  exists later,
    exchange_calls (snd (executeTrade signal st))
    = exchange_calls st
      ++ mkCall "POST" order_url (UserSettings.binance_api_key userSettings)
                (Some (qs ++ "&signature=" ++ hmac_sha256_hex k qs)%string)
         :: later.
Proof.
  intros Hconf Hday Hsize Hprice Hk qs.
  assert (Hbranch : limit_with_price signal = false).
  { destruct Hprice as [Hp | Hm]; [|now apply market_skips_branch].
    unfold limit_with_price. now rewrite Hp. }
  rewrite (executeTrade_sends_order signal st userSettings Hconf Hday Hsize Hbranch).
  cbn zeta.
  assert (Hreq : order_request signal userSettings
                 = mkCall "POST" order_url (UserSettings.binance_api_key userSettings)
                          (Some (qs ++ "&signature=" ++ hmac_sha256_hex k qs)%string)).
  { unfold order_request, secret_of, queryString0. now rewrite Hk. }
  rewrite <- Hreq.
  destruct (post_order w (order_request signal userSettings)) as [r|].
  - match goal with
    | |- context [after_response ?u ?s ?x ?t] =>
        destruct (after_response_extends u s x t) as (_ & [calls Hcalls] & _)
    end.
    rewrite Hcalls. cbn [exchange_calls]. exists calls. now rewrite <- app_assoc.
  - now exists [].
Qed.

(** X7: when the exchange accepts the order and the ledger write fails,
    [executeTrade] throws "Failed to save order to database", a
    PersistenceError.  The order request is the only request of the run
    (nothing is sent to cancel it, and no protective order is placed)
    and the ledger is unchanged. *)
Theorem executeTrade_ledger_write_fails
    (signal : TradeSignal.t) (st : State) (userSettings : UserSettings.t)
    (r : OrderResponse) (o : BinanceOrder.t) (e : string) :
  configured signal userSettings ->
  within_daily_limit signal userSettings st ->
  within_position_size signal userSettings ->
  limit_with_price signal = false ->
  post_order w (order_request signal userSettings) = Some r ->
  ok r = true ->
  json r = Some o ->
  insert_error w (row (saved_row signal userSettings o (ledger st))) = Some e ->
  fst (executeTrade signal st) = Throw (Js.Error "Failed to save order to database")
  /\ error_kind (Js.Error "Failed to save order to database") = Some PersistenceError
  /\ exchange_calls (snd (executeTrade signal st))
     = exchange_calls st ++ [order_request signal userSettings]
  /\ ledger (snd (executeTrade signal st)) = ledger st.
Proof.
  intros Hconf Hday Hsize Hbranch Hpost Hok Hjson Hins.
  rewrite (executeTrade_sends_order signal st userSettings Hconf Hday Hsize Hbranch).
  rewrite Hpost. cbn zeta.
  match goal with
  | |- context [after_response ?u ?s ?x ?t] =>
      destruct (after_response_not_saved u s x o t e Hok Hjson Hins) as [log Hrun]
  end.
  rewrite Hrun. repeat split.
Qed.



(** X9: [executeTrade] contacts the exchange only past its checks.  If a
    run sent anything, then the settings row was found, auto-trading is
    on, both credentials are present, the daily count is under the cap
    (or its query failed), the notional value is within the cap and the
    request is not a LIMIT with a price; and every request of the run is
    a POST to the order endpoint, the first being the order itself. *)
Theorem executeTrade_sends_only_past_checks (signal : TradeSignal.t) (st : State) :
  exchange_calls (snd (executeTrade signal st)) <> exchange_calls st ->
  exists userSettings later,
    configured signal userSettings
    /\ within_daily_limit signal userSettings st
    /\ within_position_size signal userSettings
    /\ limit_with_price signal = false
    /\ exchange_calls (snd (executeTrade signal st))
       = exchange_calls st ++ order_request signal userSettings :: later
    /\ forallb is_order_post (order_request signal userSettings :: later) = true.
Proof.
  intros Hsent.
  destruct (executeTrade_effect signal st)
    as (res & rows & calls & log & Hrun & Hposts & Hshape).
  rewrite Hrun in *. cbn [snd exchange_calls] in *.
  destruct Hshape as [[-> _] | (us & later & Hconf & Hday & Hsize & Hbranch & -> & _)].
  - rewrite app_nil_r in Hsent. now elim Hsent.
  - exists us, later.
    exact (conj Hconf (conj Hday (conj Hsize (conj Hbranch (conj eq_refl Hposts))))).
Qed.


(** [after_response] for an accepted, stored order that meets the test of
    line 216: the placer runs on the state with the new row, and
    whatever it does the run returns. *)
Lemma after_response_placing (userSettings : UserSettings.t)
    (signal : TradeSignal.t) (r : OrderResponse) (o : BinanceOrder.t) (st : State) :
  ok r = true ->
  json r = Some o ->
  let sl := fst (protective_prices userSettings signal o) in
  let tp := snd (protective_prices userSettings signal o) in
  let saved := saved_row signal userSettings o (ledger st) in
  insert_error w (row saved) = None ->
  places_protective userSettings o sl tp = true ->
  after_response userSettings signal r st
  = (let st2 := mkState (ledger st ++ [saved]) (exchange_calls st)
                        (console st ++ ["Binance order response:"]) in
     let answer := mkTradeResponse true (Some saved) o
                     (UserSettings.auto_tp_sl_enabled userSettings) sl tp in
     match placeTPSLOrders userSettings o (Js.ToNumber sl) (Js.ToNumber tp) st2 with
     | (Return _, st3) => (Return answer, st3)
     | (Throw _, st3) =>
         (Return answer,
          mkState (ledger st3) (exchange_calls st3)
                  (console st3 ++ ["Error placing TP/SL orders:"]))
     end).
Proof.
  intros Hok Hjson sl tp saved Hins Hplace.
  unfold after_response. rewrite Hok. cbn [negb].
  unfold bind at 1, response_json. rewrite Hjson.
  unfold ret at 1, bind at 1, console_log at 1, bind at 1.
  subst saved sl tp. unfold saved_row in *. cbn [row] in Hins.
  destruct (protective_prices userSettings signal o) as [sl tp]. cbn [fst snd] in *.
  unfold insert_order. rewrite Hins.
  cbn [isSome error data ledger exchange_calls console].
  unfold bind at 1. unfold places_protective in Hplace. rewrite Hplace.
  unfold try_catch, console_error, console_log, bind, ret. cbv zeta.
  destruct (placeTPSLOrders userSettings o (Js.ToNumber sl) (Js.ToNumber tp) _)
    as [[[]|e] st3]; reflexivity.
Qed.

(** X10: an accepted and stored order that meets the test for protective
    orders (auto TP/SL on, status FILLED, both levels truthy) is followed
    by exactly two requests when the exchange answers both: the
    take-profit (LIMIT, GTC, opposite side, executed quantity) and then
    the stop-loss (STOP_MARKET).  Their responses are not looked at: with
    any status, even a rejection, the run returns success and logs no
    error. *)
Theorem executeTrade_places_protective_orders
    (signal : TradeSignal.t) (st : State) (userSettings : UserSettings.t)
    (r r1 r2 : OrderResponse) (o : BinanceOrder.t) :
  configured signal userSettings ->
  within_daily_limit signal userSettings st ->
  within_position_size signal userSettings ->
  limit_with_price signal = false ->
  post_order w (order_request signal userSettings) = Some r ->
  ok r = true ->
  json r = Some o ->
  let sl := fst (protective_prices userSettings signal o) in
  let tp := snd (protective_prices userSettings signal o) in
  let saved := saved_row signal userSettings o (ledger st) in
  insert_error w (row saved) = None ->
  places_protective userSettings o sl tp = true ->
  post_order w (take_profit_request userSettings o (Js.ToNumber tp)) = Some r1 ->
  post_order w (stop_loss_request userSettings o (Js.ToNumber sl)) = Some r2 ->
  executeTrade signal st
  = (Return (mkTradeResponse true (Some saved) o
               (UserSettings.auto_tp_sl_enabled userSettings) sl tp),
     mkState (ledger st ++ [saved])
             (exchange_calls st
              ++ [order_request signal userSettings;
                  take_profit_request userSettings o (Js.ToNumber tp);
                  stop_loss_request userSettings o (Js.ToNumber sl)])
             (console st ++ checks_log ++ ["Binance order response:"])).
Proof.
  intros Hconf Hday Hsize Hbranch Hpost Hok Hjson sl tp saved Hins Hplace Htp Hsl.
  destruct (truthy_str_some _ (proj2 (proj2 (proj2 Hconf)))) as [k Hk].
  rewrite (executeTrade_sends_order signal st userSettings Hconf Hday Hsize Hbranch).
  rewrite Hpost. cbn zeta.
  rewrite (after_response_placing userSettings signal r o
             (mkState (ledger st)
                      (exchange_calls st ++ [order_request signal userSettings])
                      (console st ++ checks_log)) Hok Hjson Hins Hplace).
  cbn zeta. rewrite (placeTPSLOrders_run _ _ _ _ _ k Hk).
  fold sl tp. rewrite Htp, Hsl. cbn [ledger exchange_calls console].
  rewrite <- !app_assoc. reflexivity.
Qed.

(** X11: when the take-profit request cannot be delivered ([fetch]
    rejects), the stop-loss request is never sent, the failure is logged
    and swallowed, and [executeTrade] still returns success with the
    order stored. *)
Theorem executeTrade_take_profit_unreachable
    (signal : TradeSignal.t) (st : State) (userSettings : UserSettings.t)
    (r : OrderResponse) (o : BinanceOrder.t) :
  configured signal userSettings ->
  within_daily_limit signal userSettings st ->
  within_position_size signal userSettings ->
  limit_with_price signal = false ->
  post_order w (order_request signal userSettings) = Some r ->
  ok r = true ->
  json r = Some o ->
  let sl := fst (protective_prices userSettings signal o) in
  let tp := snd (protective_prices userSettings signal o) in
  let saved := saved_row signal userSettings o (ledger st) in
  insert_error w (row saved) = None ->
  places_protective userSettings o sl tp = true ->
  post_order w (take_profit_request userSettings o (Js.ToNumber tp)) = None ->
  executeTrade signal st
  = (Return (mkTradeResponse true (Some saved) o
               (UserSettings.auto_tp_sl_enabled userSettings) sl tp),
     mkState (ledger st ++ [saved])
             (exchange_calls st
              ++ [order_request signal userSettings;
                  take_profit_request userSettings o (Js.ToNumber tp)])
             (console st ++ checks_log
              ++ ["Binance order response:"; "Error placing TP/SL orders:"])).
Proof.
  intros Hconf Hday Hsize Hbranch Hpost Hok Hjson sl tp saved Hins Hplace Htp.
  destruct (truthy_str_some _ (proj2 (proj2 (proj2 Hconf)))) as [k Hk].
  rewrite (executeTrade_sends_order signal st userSettings Hconf Hday Hsize Hbranch).
  rewrite Hpost. cbn zeta.
  rewrite (after_response_placing userSettings signal r o
             (mkState (ledger st)
                      (exchange_calls st ++ [order_request signal userSettings])
                      (console st ++ checks_log)) Hok Hjson Hins Hplace).
  cbn zeta. rewrite (placeTPSLOrders_run _ _ _ _ _ k Hk).
  fold sl tp. rewrite Htp. cbn [ledger exchange_calls console].
  rewrite <- !app_assoc. reflexivity.
Qed.




(** *** Further properties of [checkTakeProfitStopLoss] *)

Lemma startsWith_append (p s : string) : Js.startsWith p (p ++ s)%string = true.
Proof.
  induction p as [|a p IH]; [reflexivity|].
  change (Ascii.eqb a a && Js.startsWith p (p ++ s)%string = true).
  now rewrite Ascii.eqb_refl, IH.
Qed.

Lemma ticker_request_is_ticker_get (position : LedgerRow) :
  is_ticker_get (ticker_request position) = true.
Proof.
  unfold is_ticker_get, ticker_request, ticker_url. cbn [method url].
  now rewrite startsWith_append.
Qed.

Lemma order_posts_no_ticker (calls : list ExchangeCall) :
  forallb is_order_post calls = true -> filter is_ticker_get calls = [].
Proof.
  induction calls as [|c calls IH]; [reflexivity|].
  cbn [forallb filter]. intros Hall. apply andb_prop in Hall. destruct Hall as [Hc Hall].
  unfold is_order_post in Hc. apply andb_prop in Hc. destruct Hc as [Hm _].
  apply String.eqb_eq in Hm. unfold is_ticker_get at 1. rewrite Hm. cbn.
  now apply IH.
Qed.

(** One turn of the loop, on every path: the turn returns, reads the
    ticker once, adds at most one entry and at most one row, and apart
    from the ticker read sends order requests only. *)
Lemma process_position_effect (userId : string) (position : LedgerRow)
    (results : list ResultEntry) (st : State) :
  exists entries rows calls log,
    process_position userId position results st
    = (Return (results ++ entries),
       mkState (ledger st ++ rows)
               (exchange_calls st ++ ticker_request position :: calls) log)
    /\ (length entries <= 1)%nat
    /\ forallb is_order_post calls = true.
Proof.
  unfold process_position, fetch_ticker, try_catch, bind, record_call, console_error,
    console_log, ret, throw, ticker_request.
  destruct (get_ticker w (Order.symbol (row position))) as [price|];
    cbv beta iota zeta.
  - destruct (trigger_check position (parseFloat_opt price)) as [[|] ty].
    + match goal with
      | |- context [executeTrade ?c ?t] =>
          destruct (executeTrade_effect c t)
            as (res & rows & calls & log & Hrun & Hposts & _);
          rewrite Hrun
      end.
      cbn [ledger exchange_calls console] in *.
      destruct res; eexists [_], rows, calls, _; rewrite <- app_assoc;
        (split; [reflexivity|]); split; [cbn; lia | exact Hposts | cbn; lia | exact Hposts].
    + exists [], [], [], (console st). rewrite !app_nil_r.
      split; [reflexivity|]. split; [cbn; lia | reflexivity].
  - eexists [_], [], [], _. rewrite app_nil_r.
    split; [reflexivity|]. split; [cbn; lia | reflexivity].
Qed.

(** The loop, on every path. *)
Lemma for_positions_effect (userId : string) (positions : list LedgerRow) :
  forall results st,
  exists entries rows calls log,
    for_positions userId positions results st
    = (Return (results ++ entries),
       mkState (ledger st ++ rows) (exchange_calls st ++ calls) log)
    /\ (length entries <= length positions)%nat
    /\ filter is_ticker_get calls = map ticker_request positions
    /\ forallb (fun c => is_ticker_get c || is_order_post c) calls = true.
Proof.
  induction positions as [|position rest IH]; intros results st.
  - exists [], [], [], (console st). rewrite !app_nil_r. cbn.
    split; [now destruct st|]. now repeat split.
  - cbn [for_positions]. unfold bind.
    destruct (process_position_effect userId position results st)
      as (e1 & r1 & c1 & l1 & Hstep & Hlen1 & Hposts1).
    rewrite Hstep.
    destruct (IH (results ++ e1)
                 (mkState (ledger st ++ r1)
                          (exchange_calls st ++ ticker_request position :: c1) l1))
      as (e2 & r2 & c2 & l2 & Hrest & Hlen2 & Htick2 & Hkinds2).
    rewrite Hrest. cbn [ledger exchange_calls].
    exists (e1 ++ e2), (r1 ++ r2), (ticker_request position :: c1 ++ c2), l2.
    split; [now rewrite !app_assoc, <- (app_assoc (exchange_calls st))|].
    split; [rewrite length_app; cbn; lia|]. split.
    + cbn [filter map]. rewrite ticker_request_is_ticker_get, filter_app,
        (order_posts_no_ticker _ Hposts1), Htick2. reflexivity.
    + cbn [forallb]. rewrite ticker_request_is_ticker_get, forallb_app, Hkinds2.
      cbn. rewrite andb_true_r. apply forallb_forall. intros c Hc.
      rewrite forallb_forall in Hposts1. rewrite (Hposts1 c Hc). apply orb_true_r.
Qed.

(** X13: without a usable settings row (query error, no row) or with
    auto TP/SL off, [checkTakeProfitStopLoss] answers "Auto TP/SL not
    enabled" and does nothing at all: no query of positions, no request,
    no console line. *)
Theorem checkTakeProfitStopLoss_not_enabled (userId : string) (st : State) :
  isSome (error (select_user_settings w userId)) = true
  \/ data (select_user_settings w userId) = None
  \/ (exists userSettings,
        data (select_user_settings w userId) = Some userSettings
        /\ Js.truthy_bool (UserSettings.auto_tp_sl_enabled userSettings) = false) ->
  checkTakeProfitStopLoss userId st = (Return (Message "Auto TP/SL not enabled"), st).
Proof.
  intros Hoff. unfold checkTakeProfitStopLoss.
  destruct (select_user_settings w userId) as [d e]. cbn [error data] in *.
  destruct Hoff as [He | [Hd | (us & Hd & Hflag)]].
  - now rewrite He.
  - rewrite Hd. now destruct (isSome e).
  - rewrite Hd. destruct (isSome e); [reflexivity|]. now rewrite Hflag.
Qed.

(** X14: when the position query fails, [checkTakeProfitStopLoss] throws
    "Failed to fetch positions" with nothing sent and nothing changed. *)
Theorem checkTakeProfitStopLoss_query_fails
    (userId : string) (st : State) (userSettings : UserSettings.t) (e : string) :
  select_user_settings w userId = mkQuery (Some userSettings) None ->
  Js.truthy_bool (UserSettings.auto_tp_sl_enabled userSettings) = true ->
  positions_error w = Some e ->
  checkTakeProfitStopLoss userId st
  = (Throw (Js.Error "Failed to fetch positions"), st).
Proof.
  intros Hq Hon Herr. unfold checkTakeProfitStopLoss.
  rewrite Hq. cbn [isSome error data]. rewrite Hon. cbn [negb].
  unfold bind, select_positions. now rewrite Herr.
Qed.

(** X15: once the positions are loaded, [checkTakeProfitStopLoss] never
    throws: a failure on one position (price read, closing trade) is
    recorded and the next position is evaluated.  The price of every
    open position is read exactly once, in ledger order; every other
    request is an order request; and there is at most one result entry
    per open position. *)
Theorem checkTakeProfitStopLoss_evaluates_every_position
    (userId : string) (st : State) (userSettings : UserSettings.t) :
  select_user_settings w userId = mkQuery (Some userSettings) None ->
  Js.truthy_bool (UserSettings.auto_tp_sl_enabled userSettings) = true ->
  positions_error w = None ->
  exists results rows calls log,
    checkTakeProfitStopLoss userId st
    = (Return (Results results),
       mkState (ledger st ++ rows) (exchange_calls st ++ calls) log)
    /\ (length results <= length (open_positions userId (ledger st)))%nat
    /\ filter is_ticker_get calls
       = map ticker_request (open_positions userId (ledger st))
    /\ forallb (fun c => is_ticker_get c || is_order_post c) calls = true.
Proof.
  intros Hq Hon Hpos. unfold checkTakeProfitStopLoss.
  rewrite Hq. cbn [isSome error data]. rewrite Hon. cbn [negb].
  unfold bind, select_positions. rewrite Hpos. cbn [isSome error data].
  destruct (for_positions_effect userId (open_positions userId (ledger st)) [] st)
    as (entries & rows & calls & log & Hloop & Hlen & Hticks & Hkinds).
  unfold open_positions in *. rewrite Hloop. cbn [app].
  exists entries, rows, calls, log. now repeat split.
Qed.

(** X16: with no open position, [checkTakeProfitStopLoss] returns an
    empty result list without reading a price or sending anything. *)
Theorem checkTakeProfitStopLoss_no_positions
    (userId : string) (st : State) (userSettings : UserSettings.t) :
  select_user_settings w userId = mkQuery (Some userSettings) None ->
  Js.truthy_bool (UserSettings.auto_tp_sl_enabled userSettings) = true ->
  positions_error w = None ->
  open_positions userId (ledger st) = [] ->
  checkTakeProfitStopLoss userId st = (Return (Results []), st).
Proof.
  intros Hq Hon Hpos Hnone. unfold checkTakeProfitStopLoss.
  rewrite Hq. cbn [isSome error data]. rewrite Hon. cbn [negb].
  unfold bind, select_positions. rewrite Hpos. cbn [isSome error data].
  unfold open_positions in Hnone. rewrite Hnone. reflexivity.
Qed.


(** [checkTakeProfitStopLoss] only ever appends to the ledger. *)
Lemma checkTakeProfitStopLoss_ledger (userId : string) (st : State) :
  exists rows, ledger (snd (checkTakeProfitStopLoss userId st)) = ledger st ++ rows.
Proof.
  unfold checkTakeProfitStopLoss.
  destruct (if isSome (error (select_user_settings w userId)) then None
            else data (select_user_settings w userId)) as [userSettings|];
    [|exists []; now rewrite app_nil_r].
  destruct (Js.truthy_bool (UserSettings.auto_tp_sl_enabled userSettings));
    [|exists []; now rewrite app_nil_r].
  cbn [negb]. unfold bind, select_positions.
  destruct (positions_error w); [exists []; now rewrite app_nil_r|].
  cbn [isSome error data].
  destruct (for_positions_effect userId (filter (position_filter userId) (ledger st)) [] st)
    as (entries & rows & calls & log & Hloop & _).
  rewrite Hloop. now exists rows.
Qed.

(** X17: [checkTakeProfitStopLoss] never closes a position in the ledger.
    Whatever happens during a call (also when closing trades are
    executed), every position of any user that was open before the call
    is open after it, unchanged: the call only appends rows. *)
Theorem checkTakeProfitStopLoss_keeps_positions_open
    (userId owner : string) (st : State) (position : LedgerRow) :
  In position (open_positions owner (ledger st)) ->
  In position (open_positions owner (ledger (snd (checkTakeProfitStopLoss userId st)))).
Proof.
  intros Hopen. destruct (checkTakeProfitStopLoss_ledger userId st) as [rows Hrows].
  rewrite Hrows. unfold open_positions in *. rewrite filter_app.
  apply in_or_app. now left.
Qed.



(** *** Properties of [getAccountInfo] *)

(** X19: unless the user has a settings row with both credentials,
    [getAccountInfo] throws a ConfigurationError ("User settings not
    found" or "Binance API credentials not configured") and sends
    nothing. *)
Theorem getAccountInfo_not_configured (userId : string) (st : State) :
  (forall userSettings,
     select_user_settings w userId = mkQuery (Some userSettings) None ->
     Js.truthy_str (UserSettings.binance_api_key userSettings)
     && Js.truthy_str (UserSettings.binance_secret_key userSettings) = false) ->
  exists msg,
    getAccountInfo userId st = (Throw (Js.Error msg), st)
    /\ error_kind (Js.Error msg) = Some ConfigurationError.
Proof.
  intros Hnone. unfold getAccountInfo.
  destruct (select_user_settings w userId) as [d e] eqn:Hq. cbn [error data].
  destruct e as [e|]; [now eexists|].
  destruct d as [userSettings|]; [|now eexists].
  cbn [isSome]. rewrite <- negb_andb, (Hnone userSettings eq_refl). now eexists.
Qed.

(** X20: with a settings row and both credentials, [getAccountInfo]
    sends one signed GET to the account endpoint (the query is
    "timestamp=" and the instant, followed by its HMAC under the user's
    secret; the API key goes in the header) and passes the account data
    on untouched.  The auto-trading switch plays no part, and the ledger
    and the console are left alone. *)
Theorem getAccountInfo_passes_account_on
    (userId : string) (st : State) (userSettings : UserSettings.t)
    (k : string) (r : AccountResponse) (accountData : string) :
  select_user_settings w userId = mkQuery (Some userSettings) None ->
  Js.truthy_str (UserSettings.binance_api_key userSettings) = true ->
  UserSettings.binance_secret_key userSettings = Some k ->
  k <> ""%string ->
  let qs := ("timestamp=" ++ Js.string_of_Z (now w))%string in
  let request :=
    mkCall "GET" (account_url (qs ++ "&signature=" ++ hmac_sha256_hex k qs)%string)
           (UserSettings.binance_api_key userSettings) None in
  get_account request = Some r ->
  account_ok r = true ->
  account_json r = Some accountData ->
  getAccountInfo userId st
  = (Return accountData,
     mkState (ledger st) (exchange_calls st ++ [request]) (console st)).
Proof.
  intros Hq Hapi Hk Hne qs request Hget Hok Hjson.
  unfold getAccountInfo. rewrite Hq. cbn [isSome error data].
  rewrite Hapi, Hk. cbn [Js.truthy_str]. unfold Js.truthy_string.
  apply String.eqb_neq in Hne. rewrite Hne. cbn [negb orb].
  unfold fetch_account, bind, createHmac, ret, record_call.
  subst request qs. cbv zeta in *. rewrite Hget. cbv beta iota.
  rewrite Hok. cbn [negb]. now rewrite Hjson.
Qed.

(** X21: when the account endpoint answers with a status outside
    200-299, [getAccountInfo] throws "Binance API error: " followed by
    the status alone (the body is not read), after the one request. *)
Theorem getAccountInfo_rejected
    (userId : string) (st : State) (userSettings : UserSettings.t)
    (k : string) (r : AccountResponse) :
  select_user_settings w userId = mkQuery (Some userSettings) None ->
  Js.truthy_str (UserSettings.binance_api_key userSettings) = true ->
  UserSettings.binance_secret_key userSettings = Some k ->
  k <> ""%string ->
  get_account (account_request userSettings) = Some r ->
  account_ok r = false ->
  getAccountInfo userId st
  = (Throw (Js.Error ("Binance API error: " ++ Js.string_of_Z (account_status r))),
     mkState (ledger st) (exchange_calls st ++ [account_request userSettings])
             (console st))
  /\ error_kind (Js.Error ("Binance API error: " ++ Js.string_of_Z (account_status r)))
     = Some ExchangeError.
Proof.
  intros Hq Hapi Hk Hne Hget Hok. split; [|apply error_kind_exchange].
  unfold account_request, secret_of in *. rewrite Hk in *. cbv zeta in Hget.
  unfold getAccountInfo. rewrite Hq. cbn [isSome error data].
  rewrite Hapi, Hk. cbn [Js.truthy_str]. unfold Js.truthy_string.
  apply String.eqb_neq in Hne. rewrite Hne. cbn [negb orb].
  unfold fetch_account, bind, createHmac, ret, record_call.
  cbv zeta. rewrite Hget. cbv beta iota. rewrite Hok. reflexivity.
Qed.


(** *** Properties of the entry point *)

(** X22: the entry point never fails.  Every request is answered, with
    status 200 and a body that is not an error, or with status 500 and
    an error body: whatever a handler throws is caught and reported. *)
Theorem serve_always_answers (req : Request) (st : State) :
  exists reply st',
    serve req st = (Return reply, st')
    /\ ((reply_status reply = 200
         /\ forall msg, reply_body reply <> ErrorBody msg)
        \/ (reply_status reply = 500
            /\ exists msg, reply_body reply = ErrorBody msg)).
Proof.
  unfold serve.
  destruct (String.eqb (request_method req) "OPTIONS").
  { eexists _, _. split; [reflexivity|]. left. split; [reflexivity|discriminate]. }
  unfold try_catch, console_error, console_log, bind at 1, ret at 1.
  match goal with
  | |- context [let (_, _) := ?body st in _] => destruct (body st) as [[reply|e] st'] eqn:Hbody
  end.
  2:{ eexists _, _. split; [reflexivity|]. right. split; [reflexivity|now eexists]. }
  exists reply, st'. split; [reflexivity|]. left.
  destruct (negb (Js.truthy_str (SUPABASE_URL env))
            || negb (Js.truthy_str (SUPABASE_SERVICE_ROLE_KEY env)));
    [discriminate|].
  destruct (request_json req) as [b|]; [|discriminate].
  destruct (action b) as [a|]; [|discriminate].
  unfold bind, ret, throw in Hbody.
  destruct (String.eqb a "execute_trade").
  { destruct (executeTrade (payload b) st) as [[r|e] s1]; inversion Hbody; subst.
    split; [reflexivity|discriminate]. }
  destruct (String.eqb a "check_tp_sl").
  { destruct (checkTakeProfitStopLoss _ st) as [[r|e] s1]; inversion Hbody; subst.
    split; [reflexivity|discriminate]. }
  destruct (String.eqb a "get_account_info"); [|discriminate].
  destruct (getAccountInfo _ st) as [[r|e] s1]; inversion Hbody; subst.
  split; [reflexivity|discriminate].
Qed.

(** X23: a preflight request (method OPTIONS) is answered 200 with no
    body, whatever the environment and the body, and has no effect: no
    settings are read, nothing is sent, nothing is logged. *)
Theorem serve_preflight (req : Request) (st : State) :
  request_method req = "OPTIONS"%string ->
  serve req st = (Return (mkReply 200 NoBody), st).
Proof.
  intros Hm. unfold serve. now rewrite Hm.
Qed.

(** X24: a request whose action is none of execute_trade, check_tp_sl and
    get_account_info (or is missing) is answered 500 with the error
    "Invalid action"; a request made when an environment variable is
    missing is answered 500 with "Supabase configuration missing",
    whatever its action.  In both cases nothing is sent to the exchange
    and the ledger is untouched. *)
Theorem serve_refuses_before_dispatch (req : Request) (st : State) (b : Body) :
  request_method req <> "OPTIONS"%string ->
  request_json req = Some b ->
  (env_configured = false ->
   serve req st
   = (Return (mkReply 500 (ErrorBody "Supabase configuration missing")),
      mkState (ledger st) (exchange_calls st) (console st ++ ["Auto trader error:"])))
  /\ (env_configured = true ->
      (forall a, action b = Some a ->
                 a <> "execute_trade"%string /\ a <> "check_tp_sl"%string
                 /\ a <> "get_account_info"%string) ->
      serve req st
      = (Return (mkReply 500 (ErrorBody "Invalid action")),
         mkState (ledger st) (exchange_calls st) (console st ++ ["Auto trader error:"]))).
Proof.
  intros Hm Hjson. apply String.eqb_neq in Hm.
  unfold serve, env_configured. rewrite Hm, Hjson, <- negb_andb. split.
  - intros ->. reflexivity.
  - intros -> Hother. cbn [negb].
    destruct (action b) as [a|]; [|reflexivity].
    destruct (Hother a eq_refl) as (H1 & H2 & H3).
    apply String.eqb_neq in H1, H2, H3. now rewrite H1, H2, H3.
Qed.

(** X25: an execute_trade request is answered from [executeTrade]: 200
    with the trade when it returns, and 500 with the message of the
    error when it throws, the effects on the ledger and on the exchange
    being those of [executeTrade]. *)
Theorem serve_execute_trade (req : Request) (st : State) (b : Body) :
  request_method req <> "OPTIONS"%string ->
  env_configured = true ->
  request_json req = Some b ->
  action b = Some "execute_trade"%string ->
  serve req st
  = match executeTrade (payload b) st with
    | (Return r, st') => (Return (mkReply 200 (TradeBody r)), st')
    | (Throw e, st') =>
        (Return (mkReply 500 (ErrorBody (Js.message e))),
         mkState (ledger st') (exchange_calls st') (console st' ++ ["Auto trader error:"]))
    end.
Proof.
  intros Hm Henv Hjson Haction. apply String.eqb_neq in Hm.
  unfold serve, env_configured in *. rewrite Hm, Hjson, Haction, <- negb_andb, Henv.
  cbn [negb String.eqb Ascii.eqb Bool.eqb andb].
  unfold try_catch, bind, ret, console_error, console_log.
  now destruct (executeTrade (payload b) st) as [[r|e] st'].
Qed.

(** X26: an execute_trade request for a user whose auto-trading is off is
    answered 500 with the error "Auto trading is disabled for this user";
    nothing is sent to the exchange and the ledger is untouched. *)
Theorem serve_trading_disabled (req : Request) (st : State) (b : Body)
    (userSettings : UserSettings.t) :
  request_method req <> "OPTIONS"%string ->
  env_configured = true ->
  request_json req = Some b ->
  action b = Some "execute_trade"%string ->
  select_user_settings w (TradeSignal.userId (payload b))
    = mkQuery (Some userSettings) None ->
  Js.truthy_bool (UserSettings.auto_trading_enabled userSettings) = false ->
  exists log,
    serve req st
    = (Return (mkReply 500 (ErrorBody "Auto trading is disabled for this user")),
       mkState (ledger st) (exchange_calls st) log).
Proof.
  intros Hm Henv Hjson Haction Hq Hoff. apply String.eqb_neq in Hm.
  unfold serve, env_configured in *. rewrite Hm, Hjson, Haction, <- negb_andb, Henv.
  cbn [negb String.eqb Ascii.eqb Bool.eqb andb].
  unfold try_catch, bind at 1.
  rewrite (executeTrade_refuses_disabled (payload b) st userSettings Hq Hoff).
  eexists. reflexivity.
Qed.


(** *** The window of the daily count *)

Lemma utc_day_bounds (t d : Z) :
  utc_day t = d <-> d * ms_per_day <= t < (d + 1) * ms_per_day.
Proof.
  unfold utc_day, ms_per_day. split.
  - intros <-. pose proof (Z.mul_div_le t 86400000 ltac:(lia)).
    pose proof (Z.mul_succ_div_gt t 86400000 ltac:(lia)). lia.
  - intros Hd. symmetry. apply (Z.div_unique t 86400000 d (t - d * 86400000)); lia.
Qed.

(** X27: the orders the daily-limit query returns are exactly the stored
    orders of the user created on the current UTC day at any instant but
    its last millisecond. *)
Theorem daily_count_window (userId : string) (st : State) :
  today_trades_error w = None ->
  select_today_trades userId (utc_day (now w)) st
  = (Return (mkQuery (Some (map id (todays_orders userId st))) None), st)
  /\ forall r,
       In r (todays_orders userId st)
       <-> In r (ledger st)
           /\ Order.user_id (row r) = userId
           /\ utc_day (created_at r) = utc_day (now w)
           /\ created_at r <> T23_59_59_999Z (utc_day (now w)).
Proof.
  intros Herr. split.
  - unfold select_today_trades, todays_orders. now rewrite Herr.
  - intros r. unfold todays_orders. rewrite filter_In. unfold today_filter.
    rewrite !andb_true_iff, String.eqb_eq, Z.leb_le, Z.ltb_lt, utc_day_bounds.
    unfold T00_00_00_000Z, T23_59_59_999Z, ms_per_day. split.
    + intros (Hin & (Hu & Hlo) & Hhi). repeat split; trivial; lia.
    + intros (Hin & Hu & (Hlo & Hhi) & Hne). repeat split; trivial; lia.
Qed.

(** X28: a check_tp_sl request for a user whose auto TP/SL is off is
    answered 200 with the message "Auto TP/SL not enabled" (not an
    error, unlike a trade request with auto-trading off), and has no
    effect. *)
Theorem serve_check_not_enabled (req : Request) (st : State) (b : Body)
    (userSettings : UserSettings.t) :
  request_method req <> "OPTIONS"%string ->
  env_configured = true ->
  request_json req = Some b ->
  action b = Some "check_tp_sl"%string ->
  select_user_settings w (TradeSignal.userId (payload b))
    = mkQuery (Some userSettings) None ->
  Js.truthy_bool (UserSettings.auto_tp_sl_enabled userSettings) = false ->
  serve req st
  = (Return (mkReply 200 (CheckBody (Message "Auto TP/SL not enabled"))), st).
Proof.
  intros Hm Henv Hjson Haction Hq Hoff. apply String.eqb_neq in Hm.
  unfold serve, env_configured in *. rewrite Hm, Hjson, Haction, <- negb_andb, Henv.
  cbn [negb String.eqb Ascii.eqb Bool.eqb andb].
  unfold try_catch, bind at 1.
  rewrite (checkTakeProfitStopLoss_not_enabled (TradeSignal.userId (payload b)) st).
  - reflexivity.
  - right. right. exists userSettings. rewrite Hq. now split.
Qed.


End AutoTrader.

(* ------------------------------------------------------------------ *)
(** ** Concrete runs *)

(** The functions at the sample built-ins. *)
Abbreviation sample_executeTrade :=
  (executeTrade Sample.parseFloat Sample.Number_toString Sample.hmac_sha256_hex).
Abbreviation sample_checkTakeProfitStopLoss :=
  (checkTakeProfitStopLoss Sample.parseFloat Sample.Number_toString
                           Sample.hmac_sha256_hex).
Abbreviation sample_order_request :=
  (order_request Sample.Number_toString Sample.hmac_sha256_hex).

Local Open Scope list_scope.

Ltac checks_pass :=
  first [ reflexivity
        | now (repeat split)
        | now (intros _; reflexivity) ].

(** A LIMIT order of 0.001 at price 100, on a configured account within
    its limits: the run ends in the TypeError, with no request sent and
    no row stored. *)
Lemma executeTrade_limit_order_faults_witness :
  let w := Sample.world Sample.evening Sample.settings None Sample.filled_buy in
  let signal := Sample.signal BUY LIMIT (Some 100%float) None None in
  fst (sample_executeTrade w signal Sample.empty)
  = Throw (Js.TypeError "Assignment to constant variable.")
  /\ exchange_calls (snd (sample_executeTrade w signal Sample.empty)) = []
  /\ ledger (snd (sample_executeTrade w signal Sample.empty)) = [].
Proof.
  intros w signal.   apply (executeTrade_limit_order_faults Sample.parseFloat Sample.Number_toString
           Sample.hmac_sha256_hex w signal Sample.empty Sample.settings 100%float);
    checks_pass.
Defined.

(** One order of the user at 23:59:59.999 of the current day, seen by a
    call in that same millisecond: inside the day, and not selected. *)
Lemma daily_count_misses_last_millisecond_witness :
  let w := Sample.world Sample.last_ms Sample.settings None Sample.filled_buy in
  let st := Sample.one_order Sample.last_ms in
  let r := Sample.stored "p1" Sample.last_ms in
  (T00_00_00_000Z (utc_day (now w)) <= created_at r
     < T00_00_00_000Z (utc_day (now w) + 1))
  /\ utc_day (created_at r) = utc_day (now w)
  /\ exists rows,
       select_today_trades w "u1" (utc_day (now w)) st
       = (Return (mkQuery (Some (map id rows)) None), st)
       /\ ~ In r rows.
Proof.
  intros w st r.
  apply (daily_count_misses_last_millisecond w "u1" st r).
  - now left.
  - reflexivity.
  - reflexivity.
  - reflexivity.
Defined.

(** The account with auto-trading off: a market order is refused. *)
Lemma executeTrade_auto_trading_disabled_witness :
  let w := Sample.world Sample.evening Sample.settings_trading_off None Sample.filled_buy in
  let signal := Sample.signal BUY MARKET None None None in
  exists msg st',
    sample_executeTrade w signal Sample.empty = (Throw (Js.Error msg), st')
    /\ error_kind (Js.Error msg) = Some ConfigurationError
    /\ (error (select_user_settings w (TradeSignal.userId signal)) = None ->
        msg = "Auto trading is disabled for this user"%string)
    /\ exchange_calls st' = exchange_calls Sample.empty
    /\ ledger st' = ledger Sample.empty.
Proof.
  intros w signal.   apply (executeTrade_auto_trading_disabled Sample.parseFloat Sample.Number_toString
           Sample.hmac_sha256_hex w signal Sample.empty Sample.settings_trading_off);
    checks_pass.
Defined.

(** A market BUY filled at 100 with percentages 5 and 10. *)
Lemma executeTrade_protective_levels_witness :
  let w := Sample.world Sample.evening Sample.settings None Sample.filled_buy in
  let signal := Sample.signal BUY MARKET None (Some 5%float) (Some 10%float) in
  let sl := fst (levels_5_10 BUY (Sample.parseFloat "100")) in
  let tp := snd (levels_5_10 BUY (Sample.parseFloat "100")) in
  exists saved st',
    sample_executeTrade w signal Sample.empty
    = (Return (mkTradeResponse true (Some saved) (Sample.exchange_order "BUY" (Some [Sample.fill]))
                 (Some true) (Some sl) (Some tp)), st')
    /\ In saved (ledger st')
    /\ Order.stop_loss_price (row saved) = Some sl
    /\ Order.take_profit_price (row saved) = Some tp.
Proof.
  intros w signal sl tp.   apply (executeTrade_protective_levels Sample.parseFloat Sample.Number_toString
           Sample.hmac_sha256_hex w signal Sample.empty Sample.settings
           Sample.filled_buy (Sample.exchange_order "BUY" (Some [Sample.fill]))
           Sample.fill []);
    checks_pass.
Defined.

(** The request asks for 0 percent on both legs; the account defaults are
    5 and 10.  The percentages the code computes with are the defaults,
    not the values given, and the levels of a fill at 100 are 100 * 0.95
    and 100 * 1.10 rather than 100 and 100. *)
Lemma zero_percent_falls_back_to_default :
  let signal := Sample.signal BUY MARKET None (Some 0%float) (Some 0%float) in
  let o := Sample.exchange_order "BUY" (Some [Sample.fill]) in
  TradeSignal.stopLossPercent signal = Some 0%float
  /\ TradeSignal.takeProfitPercent signal = Some 0%float
  /\ slPercent signal Sample.settings = Some 5%float
  /\ tpPercent signal Sample.settings = Some 10%float
  /\ slPercent signal Sample.settings
     <> percent_as_stated (TradeSignal.stopLossPercent signal)
          (UserSettings.default_stop_loss_percent Sample.settings)
  /\ tpPercent signal Sample.settings
     <> percent_as_stated (TradeSignal.takeProfitPercent signal)
          (UserSettings.default_take_profit_percent Sample.settings)
  /\ protective_prices Sample.parseFloat Sample.settings signal o
     = (Some (100 * 0.95)%float, Some (100 * 1.10)%float)
  /\ protective_prices Sample.parseFloat Sample.settings signal o
     <> (Some (fst (levels BUY 100 0 0)), Some (snd (levels BUY 100 0 0))).
Proof.
  cbv zeta. repeat split; try reflexivity.
  - intros H.
    apply (f_equal (fun x => PrimFloat.eqb (Js.ToNumber x) 5)) in H.
    vm_compute in H. discriminate.
  - intros H.
    apply (f_equal (fun x => PrimFloat.eqb (Js.ToNumber x) 10)) in H.
    vm_compute in H. discriminate.
  - intros H.
    apply (f_equal (fun x => PrimFloat.eqb (Js.ToNumber (fst x)) 95)) in H.
    vm_compute in H. discriminate.
Qed.

(** A request with 0 percent for the stop-loss and 7 percent for the
    take-profit: the stop-loss leg takes the account default, the
    take-profit leg the request's value. *)
Lemma executeTrade_percentages_in_force_witness :
  let w := Sample.world Sample.evening Sample.settings None Sample.filled_buy in
  let signal := Sample.signal BUY MARKET None (Some 0%float) (Some 7%float) in
  let prices := levels BUY (Sample.parseFloat "100") 5 7 in
  exists saved st',
    sample_executeTrade w signal Sample.empty
    = (Return (mkTradeResponse true (Some saved)
                 (Sample.exchange_order "BUY" (Some [Sample.fill]))
                 (Some true) (Some (fst prices)) (Some (snd prices))), st')
    /\ In saved (ledger st')
    /\ Order.stop_loss_price (row saved) = Some (fst prices)
    /\ Order.take_profit_price (row saved) = Some (snd prices).
Proof.
  intros w signal prices.   apply (executeTrade_percentages_in_force Sample.parseFloat Sample.Number_toString
           Sample.hmac_sha256_hex w signal Sample.empty Sample.settings
           Sample.filled_buy (Sample.exchange_order "BUY" (Some [Sample.fill]))
           Sample.fill []);
    checks_pass.
Defined.

(** A market BUY accepted with no [fills] in the response. *)
Lemma executeTrade_without_fills_witness :
  let answer := Sample.accepted "BUY" None in
  let w := Sample.world Sample.evening Sample.settings None answer in
  let signal := Sample.signal BUY MARKET None None None in
  exists saved log,
    sample_executeTrade w signal Sample.empty
    = (Return (mkTradeResponse true (Some saved) (Sample.exchange_order "BUY" None)
                 (Some true) None None),
       mkState [saved]
               [sample_order_request w signal Sample.settings]
               log)
    /\ Order.stop_loss_price (row saved) = None
    /\ Order.take_profit_price (row saved) = None
    /\ Order.auto_tp_sl_enabled (row saved) = Some true.
Proof.
  intros answer w signal.   apply (executeTrade_without_fills Sample.parseFloat Sample.Number_toString
           Sample.hmac_sha256_hex w signal Sample.empty Sample.settings
           answer (Sample.exchange_order "BUY" None));
    checks_pass.
Defined.

(** The exchange answers 400 with a reason in the body. *)
Lemma executeTrade_exchange_rejects_witness :
  let w := Sample.world Sample.evening Sample.settings None Sample.rejected in
  let signal := Sample.signal BUY MARKET None None None in
  let thrown :=
    Js.Error "Binance API error: 400 {code:-2010,msg:insufficient balance}" in
  exists st',
    sample_executeTrade w signal Sample.empty = (Throw thrown, st')
    /\ error_kind thrown = Some ExchangeError
    /\ ledger st' = []
    /\ exchange_calls st'
       = [sample_order_request w signal Sample.settings].
Proof.
  intros w signal thrown.   apply (executeTrade_exchange_rejects Sample.parseFloat Sample.Number_toString
           Sample.hmac_sha256_hex w signal Sample.empty Sample.settings Sample.rejected);
    checks_pass.
Defined.

(** The count query fails while the user already has one order today and
    a cap of one: the failure is logged and the order is sent. *)
Lemma executeTrade_count_query_fails_witness :
  let w := Sample.world Sample.evening Sample.settings (Some "connection reset")
                        Sample.filled_buy in
  let signal := Sample.signal BUY MARKET None None None in
  let st := Sample.one_order Sample.evening in
  (Js.ToInteger (UserSettings.max_daily_trades Sample.settings)
     <= Z.of_nat (length (todays_orders w "u1" st)))
  /\ In "Error checking daily trades:"%string
        (console (snd (sample_executeTrade w signal st)))
  /\ exists later,
       exchange_calls (snd (sample_executeTrade w signal st))
       = exchange_calls st
         ++ sample_order_request w signal Sample.settings :: later.
Proof.
  intros w signal st. split; [now vm_compute|].   apply (executeTrade_count_query_fails Sample.parseFloat Sample.Number_toString
           Sample.hmac_sha256_hex w signal st Sample.settings "connection reset");
    checks_pass.
Defined.

(** One open position whose stop-loss is reached at the ticker price of
    100: with auto-trading off, and with auto-trading on but the single
    allowed order of the day already used, the exit is reported as
    failed, nothing is sent as an order and the ledger is as before. *)
Lemma protective_exits_meet_the_checks_witness :
  let st := Sample.one_order Sample.evening in
  let outcome (w : World) (msg : string) :=
    exists results st',
      sample_checkTakeProfitStopLoss w "u1" st = (Return (Results results), st')
      /\ results = [Failed "p1" msg]
      /\ ledger st' = ledger st
      /\ filter is_order_post (exchange_calls st') = [] in
  outcome (Sample.world Sample.evening Sample.settings_trading_off None Sample.filled_buy)
          "Auto trading is disabled for this user"%string
  /\ outcome (Sample.world Sample.evening Sample.settings None Sample.filled_buy)
             "Daily trade limit reached"%string.
Proof.
  intros st outcome. subst outcome. cbv beta. split.
  - destruct (protective_exits_meet_the_checks Sample.parseFloat Sample.Number_toString
                Sample.hmac_sha256_hex
                (Sample.world Sample.evening Sample.settings_trading_off None Sample.filled_buy)
                "u1" st Sample.settings_trading_off
                "Auto trading is disabled for this user")
      as (results & st' & Hrun & Hres & _ & _ & Hledger & Hcalls);
      [reflexivity | reflexivity | reflexivity | left; now split |].
    exists results, st'. repeat split; assumption.
  - destruct (protective_exits_meet_the_checks Sample.parseFloat Sample.Number_toString
                Sample.hmac_sha256_hex
                (Sample.world Sample.evening Sample.settings None Sample.filled_buy)
                "u1" st Sample.settings "Daily trade limit reached")
      as (results & st' & Hrun & Hres & _ & _ & Hledger & Hcalls);
      [reflexivity | reflexivity | reflexivity
      | right; repeat split; try reflexivity; now vm_compute |].
    exists results, st'. repeat split; assumption.
Defined.

(** The rule at sample positions: a BUY with stop-loss 100 and
    take-profit 110, a SELL with stop-loss 110 and take-profit 90, and a
    BUY whose levels are crossed over (stop-loss 100, take-profit 90), for
    which both tests hold at 95 and the stop-loss wins. *)
Lemma trigger_rule_witness :
  let long := Sample.position "p1" Sample.evening "BUY" 100 110 in
  let short := Sample.position "p2" Sample.evening "SELL" 110 90 in
  let crossed := Sample.position "p3" Sample.evening "BUY" 100 90 in
  (trigger_check long 100 = (true, "STOP_LOSS"%string)
   /\ trigger_check long 120 = (true, "TAKE_PROFIT"%string)
   /\ trigger_check long 105 = (false, ""%string))
  /\ (trigger_check short 110 = (true, "STOP_LOSS"%string)
      /\ trigger_check short 80 = (true, "TAKE_PROFIT"%string)
      /\ trigger_check short 100 = (false, ""%string))
  /\ (Js.le 95 100 = true /\ Js.ge 95 90 = true
      /\ trigger_check crossed 95 = (true, "STOP_LOSS"%string)).
Proof.
  intros long short crossed.
  pose (rule := trigger_rule Sample.parseFloat Sample.Number_toString
                  Sample.hmac_sha256_hex
                  (Sample.world Sample.evening Sample.settings None Sample.filled_buy)
                  "u1").
  refine (conj (conj _ (conj _ _))
               (conj (conj _ (conj _ _)) (conj eq_refl (conj eq_refl _)))).
  - apply (proj1 (proj1 (rule long 100%float) eq_refl)). reflexivity.
  - apply (proj1 (proj2 (proj1 (rule long 120%float) eq_refl))); reflexivity.
  - apply (proj2 (proj2 (proj1 (rule long 105%float) eq_refl))); reflexivity.
  - apply (proj1 (proj1 (proj2 (rule short 110%float)) eq_refl)). reflexivity.
  - apply (proj1 (proj2 (proj1 (proj2 (rule short 80%float)) eq_refl)));
      reflexivity.
  - apply (proj2 (proj2 (proj1 (proj2 (rule short 100%float)) eq_refl)));
      reflexivity.
  - apply (proj1 (proj1 (rule crossed 95%float) eq_refl)). reflexivity.
Defined.

(** A price that does not parse gives NaN, and NaN crosses no level. *)
Example trigger_check_at_nan :
  trigger_check (Sample.stored "p1" Sample.evening) PrimFloat.nan = (false, ""%string).
Proof. reflexivity. Qed.

(** With a cap of one order a day and one order stored at 23:59:59.999,
    a request in that millisecond is still sent to the exchange. *)
Example order_of_last_millisecond_escapes_the_cap :
  let w := Sample.world Sample.last_ms Sample.settings None Sample.filled_buy in
  let signal := Sample.signal BUY MARKET None None None in
  let st := Sample.one_order Sample.last_ms in
  UserSettings.max_daily_trades Sample.settings = Some 1
  /\ utc_day (created_at (Sample.stored "p1" Sample.last_ms)) = utc_day (now w)
  /\ todays_orders w "u1" st = []
  /\ hd_error (exchange_calls (snd (sample_executeTrade w signal st)))
     = Some (sample_order_request w signal Sample.settings).
Proof. repeat split. Qed.

(** The string the [+=] of line 139 would produce puts price and
    timeInForce after the timestamp. *)
Example limit_parameters_follow_timestamp :
  let signal := Sample.signal BUY LIMIT (Some 100%float) None None in
  (queryString0 Sample.Number_toString signal Sample.evening
   ++ limit_suffix Sample.Number_toString signal)%string
  = "symbol=BTCUSDT&side=BUY&type=LIMIT&quantity=0.001&timestamp=1700000000000&price=100&timeInForce=GTC"%string.
Proof. reflexivity. Qed.

(* ------------------------------------------------------------------ *)
(** ** Concrete runs of the further properties *)

Abbreviation sample_getAccountInfo :=
  (getAccountInfo Sample.hmac_sha256_hex).
Abbreviation sample_serve :=
  (serve Sample.parseFloat Sample.Number_toString Sample.hmac_sha256_hex).
Abbreviation sample_saved_row :=
  (saved_row Sample.parseFloat).
Abbreviation sample_protective_prices :=
  (protective_prices Sample.parseFloat).

(** A user without a settings row asks for a trade. *)
Lemma executeTrade_settings_not_found_witness :
  let w := Sample.world Sample.evening Sample.settings None Sample.filled_buy in
  fst (sample_executeTrade w Sample.stranger Sample.empty)
  = Throw (Js.Error "User settings not found")
  /\ error_kind (Js.Error "User settings not found") = Some ConfigurationError
  /\ exchange_calls (snd (sample_executeTrade w Sample.stranger Sample.empty)) = []
  /\ ledger (snd (sample_executeTrade w Sample.stranger Sample.empty)) = [].
Proof.
  intros w.
  apply (executeTrade_settings_not_found Sample.parseFloat Sample.Number_toString
           Sample.hmac_sha256_hex w Sample.stranger Sample.empty).
  left. reflexivity.
Defined.

(** The account has an API key and no secret key. *)
Lemma executeTrade_credentials_missing_witness :
  let w := Sample.world Sample.evening Sample.settings_no_secret None Sample.filled_buy in
  let signal := Sample.signal BUY MARKET None None None in
  fst (sample_executeTrade w signal Sample.empty)
  = Throw (Js.Error "Binance API credentials not configured")
  /\ error_kind (Js.Error "Binance API credentials not configured")
     = Some ConfigurationError
  /\ exchange_calls (snd (sample_executeTrade w signal Sample.empty)) = []
  /\ ledger (snd (sample_executeTrade w signal Sample.empty)) = [].
Proof.
  intros w signal.
  apply (executeTrade_credentials_missing Sample.parseFloat Sample.Number_toString
           Sample.hmac_sha256_hex w signal Sample.empty Sample.settings_no_secret);
    [reflexivity | reflexivity | right; reflexivity].
Defined.

(** A cap of one order a day, and one order of today in the ledger. *)
Lemma executeTrade_daily_cap_reached_witness :
  let w := Sample.world Sample.evening Sample.settings None Sample.filled_buy in
  let signal := Sample.signal BUY MARKET None None None in
  let st := Sample.one_order Sample.evening in
  fst (sample_executeTrade w signal st) = Throw (Js.Error "Daily trade limit reached")
  /\ error_kind (Js.Error "Daily trade limit reached") = Some LimitExceededError
  /\ exchange_calls (snd (sample_executeTrade w signal st)) = []
  /\ ledger (snd (sample_executeTrade w signal st)) = ledger st.
Proof.
  intros w signal st.
  apply (executeTrade_daily_cap_reached Sample.parseFloat Sample.Number_toString
           Sample.hmac_sha256_hex w signal st Sample.settings);
    [now repeat split | reflexivity | now vm_compute].
Defined.

(** No cap stored, and an empty ledger: the first order of the day is
    refused. *)
Lemma executeTrade_without_cap_refuses_all_witness :
  let w := Sample.world Sample.evening Sample.settings_no_cap None Sample.filled_buy in
  let signal := Sample.signal BUY MARKET None None None in
  fst (sample_executeTrade w signal Sample.empty)
  = Throw (Js.Error "Daily trade limit reached")
  /\ exchange_calls (snd (sample_executeTrade w signal Sample.empty)) = []
  /\ ledger (snd (sample_executeTrade w signal Sample.empty)) = [].
Proof.
  intros w signal.
  apply (executeTrade_without_cap_refuses_all Sample.parseFloat Sample.Number_toString
           Sample.hmac_sha256_hex w signal Sample.empty Sample.settings_no_cap);
    [now repeat split | reflexivity | left; reflexivity].
Defined.

(** 0.001 at a price of 2,000,000 is worth 2000, above the cap of 1000. *)
Lemma executeTrade_position_size_exceeded_witness :
  let w := Sample.world Sample.evening Sample.settings None Sample.filled_buy in
  let signal := Sample.signal BUY MARKET (Some 2000000%float) None None in
  fst (sample_executeTrade w signal Sample.empty)
  = Throw (Js.Error "Trade size exceeds maximum position size")
  /\ error_kind (Js.Error "Trade size exceeds maximum position size")
     = Some LimitExceededError
  /\ exchange_calls (snd (sample_executeTrade w signal Sample.empty)) = []
  /\ ledger (snd (sample_executeTrade w signal Sample.empty)) = [].
Proof.
  intros w signal.
  apply (executeTrade_position_size_exceeded Sample.parseFloat Sample.Number_toString
           Sample.hmac_sha256_hex w signal Sample.empty Sample.settings);
    checks_pass.
Defined.

(** A LIMIT request without a price: it goes out as type=LIMIT with no
    price and no timeInForce. *)
Lemma executeTrade_signed_request_witness :
  let w := Sample.world Sample.evening Sample.settings None Sample.filled_buy in
  let signal := Sample.signal BUY LIMIT None None None in
  let qs := "symbol=BTCUSDT&side=BUY&type=LIMIT&quantity=0.001&timestamp=1700000000000"%string in
  exists later,
    exchange_calls (snd (sample_executeTrade w signal Sample.empty))
    = mkCall "POST" order_url (Some "api-key"%string)
             (Some (qs ++ "&signature=" ++ Sample.hmac_sha256_hex "secret" qs)%string)
      :: later.
Proof.
  intros w signal qs.
  apply (executeTrade_signed_request Sample.parseFloat Sample.Number_toString
           Sample.hmac_sha256_hex w signal Sample.empty Sample.settings "secret");
    first [checks_pass | left; reflexivity].
Defined.

(** The exchange fills the order and the ledger write fails. *)
Lemma executeTrade_ledger_write_fails_witness :
  let w := Sample.world_with Sample.evening Sample.settings (Some "connection lost") None
             (fun _ => Some Sample.filled_buy) (fun _ => Some (Some "100"%string)) in
  let signal := Sample.signal BUY MARKET None None None in
  fst (sample_executeTrade w signal Sample.empty)
  = Throw (Js.Error "Failed to save order to database")
  /\ error_kind (Js.Error "Failed to save order to database") = Some PersistenceError
  /\ exchange_calls (snd (sample_executeTrade w signal Sample.empty))
     = [sample_order_request w signal Sample.settings]
  /\ ledger (snd (sample_executeTrade w signal Sample.empty)) = [].
Proof.
  intros w signal.
  apply (executeTrade_ledger_write_fails Sample.parseFloat Sample.Number_toString
           Sample.hmac_sha256_hex w signal Sample.empty Sample.settings
           Sample.filled_buy (Sample.exchange_order "BUY" (Some [Sample.fill]))
           "connection lost");
    checks_pass.
Defined.

(** A market order that was sent: the checks had passed. *)
Lemma executeTrade_sends_only_past_checks_witness :
  let w := Sample.world Sample.evening Sample.settings None Sample.filled_buy in
  let signal := Sample.signal BUY MARKET None None None in
  exists userSettings later,
    configured w signal userSettings
    /\ within_daily_limit w signal userSettings Sample.empty
    /\ within_position_size signal userSettings
    /\ limit_with_price signal = false
    /\ exchange_calls (snd (sample_executeTrade w signal Sample.empty))
       = exchange_calls Sample.empty
         ++ sample_order_request w signal userSettings :: later
    /\ forallb is_order_post (sample_order_request w signal userSettings :: later) = true.
Proof.
  intros w signal.
  apply (executeTrade_sends_only_past_checks Sample.parseFloat Sample.Number_toString
           Sample.hmac_sha256_hex w signal Sample.empty).
  vm_compute. discriminate.
Defined.

(** The exchange fills the market order and rejects both protective
    orders with status 400: three requests, success, no error logged. *)
Lemma executeTrade_places_protective_orders_witness :
  let w := Sample.world_with Sample.evening Sample.settings None None
             Sample.market_else_400 (fun _ => Some (Some "100"%string)) in
  let signal := Sample.signal BUY MARKET None None None in
  let o := Sample.exchange_order "BUY" (Some [Sample.fill]) in
  let sl := fst (sample_protective_prices Sample.settings signal o) in
  let tp := snd (sample_protective_prices Sample.settings signal o) in
  let saved := sample_saved_row w signal Sample.settings o [] in
  ok Sample.rejected = false
  /\ sample_executeTrade w signal Sample.empty
     = (Return (mkTradeResponse true (Some saved) o (Some true) sl tp),
        mkState [saved]
          [sample_order_request w signal Sample.settings;
           take_profit_request Sample.Number_toString Sample.hmac_sha256_hex w
                               Sample.settings o (Js.ToNumber tp);
           stop_loss_request Sample.Number_toString Sample.hmac_sha256_hex w
                             Sample.settings o (Js.ToNumber sl)]
          ["Executing trade signal:"%string; "Binance order response:"%string]).
Proof.
  intros w signal o sl tp saved. split; [reflexivity|].
  apply (executeTrade_places_protective_orders Sample.parseFloat Sample.Number_toString
           Sample.hmac_sha256_hex w signal Sample.empty Sample.settings
           Sample.filled_buy Sample.rejected Sample.rejected o);
    checks_pass.
Defined.

(** The exchange fills the market order and cannot be reached for the
    take-profit: no stop-loss request, success, one error logged. *)
Lemma executeTrade_take_profit_unreachable_witness :
  let w := Sample.world_with Sample.evening Sample.settings None None
             Sample.market_only (fun _ => Some (Some "100"%string)) in
  let signal := Sample.signal BUY MARKET None None None in
  let o := Sample.exchange_order "BUY" (Some [Sample.fill]) in
  let sl := fst (sample_protective_prices Sample.settings signal o) in
  let tp := snd (sample_protective_prices Sample.settings signal o) in
  let saved := sample_saved_row w signal Sample.settings o [] in
  sample_executeTrade w signal Sample.empty
  = (Return (mkTradeResponse true (Some saved) o (Some true) sl tp),
     mkState [saved]
       [sample_order_request w signal Sample.settings;
        take_profit_request Sample.Number_toString Sample.hmac_sha256_hex w
                            Sample.settings o (Js.ToNumber tp)]
       ["Executing trade signal:"%string; "Binance order response:"%string;
        "Error placing TP/SL orders:"%string]).
Proof.
  intros w signal o sl tp saved.
  apply (executeTrade_take_profit_unreachable Sample.parseFloat Sample.Number_toString
           Sample.hmac_sha256_hex w signal Sample.empty Sample.settings
           Sample.filled_buy o);
    checks_pass.
Defined.


(** The account with auto TP/SL off and an open position in the ledger. *)
Lemma checkTakeProfitStopLoss_not_enabled_witness :
  let w := Sample.world Sample.evening Sample.settings_tpsl_off None Sample.filled_buy in
  let st := Sample.one_order Sample.evening in
  sample_checkTakeProfitStopLoss w "u1" st
  = (Return (Message "Auto TP/SL not enabled"), st).
Proof.
  intros w st.
  apply (checkTakeProfitStopLoss_not_enabled Sample.parseFloat Sample.Number_toString
           Sample.hmac_sha256_hex w "u1" st).
  right. right. exists Sample.settings_tpsl_off. split; reflexivity.
Defined.

(** The position query times out. *)
Lemma checkTakeProfitStopLoss_query_fails_witness :
  let w := Sample.world_with Sample.evening Sample.settings None (Some "timeout")
             (fun _ => Some Sample.filled_buy) (fun _ => Some (Some "100"%string)) in
  let st := Sample.one_order Sample.evening in
  sample_checkTakeProfitStopLoss w "u1" st
  = (Throw (Js.Error "Failed to fetch positions"), st).
Proof.
  intros w st.
  apply (checkTakeProfitStopLoss_query_fails Sample.parseFloat Sample.Number_toString
           Sample.hmac_sha256_hex w "u1" st Sample.settings "timeout");
    reflexivity.
Defined.

(** One open position, and a ticker that cannot be reached: the call
    returns, with one price read and at most one entry. *)
Lemma checkTakeProfitStopLoss_evaluates_every_position_witness :
  let w := Sample.world_with Sample.evening Sample.settings None None
             (fun _ => Some Sample.filled_buy) (fun _ => None) in
  let st := Sample.one_order Sample.evening in
  exists results rows calls log,
    sample_checkTakeProfitStopLoss w "u1" st
    = (Return (Results results),
       mkState (ledger st ++ rows) (exchange_calls st ++ calls) log)
    /\ (length results <= length (open_positions "u1" (ledger st)))%nat
    /\ filter is_ticker_get calls
       = map ticker_request (open_positions "u1" (ledger st))
    /\ forallb (fun c => is_ticker_get c || is_order_post c) calls = true.
Proof.
  intros w st.
  apply (checkTakeProfitStopLoss_evaluates_every_position Sample.parseFloat
           Sample.Number_toString Sample.hmac_sha256_hex w "u1" st Sample.settings);
    reflexivity.
Defined.

(** An empty ledger. *)
Lemma checkTakeProfitStopLoss_no_positions_witness :
  let w := Sample.world Sample.evening Sample.settings None Sample.filled_buy in
  sample_checkTakeProfitStopLoss w "u1" Sample.empty
  = (Return (Results []), Sample.empty).
Proof.
  intros w.
  apply (checkTakeProfitStopLoss_no_positions Sample.parseFloat Sample.Number_toString
           Sample.hmac_sha256_hex w "u1" Sample.empty Sample.settings);
    reflexivity.
Defined.

(** The sample position is closed by a trade that goes through, and is
    still open afterwards. *)
Lemma checkTakeProfitStopLoss_keeps_positions_open_witness :
  let w := Sample.world Sample.evening Sample.settings_cap_50 None Sample.filled_buy in
  let st := Sample.one_order Sample.evening in
  let position := Sample.stored "p1" Sample.evening in
  length (ledger (snd (sample_checkTakeProfitStopLoss w "u1" st))) = 2%nat
  /\ In position
        (open_positions "u1" (ledger (snd (sample_checkTakeProfitStopLoss w "u1" st)))).
Proof.
  intros w st position. split; [reflexivity|].
  apply (checkTakeProfitStopLoss_keeps_positions_open Sample.parseFloat
           Sample.Number_toString Sample.hmac_sha256_hex w "u1" "u1" st position).
  now left.
Defined.


(** A user without a settings row asks for the account. *)
Lemma getAccountInfo_not_configured_witness :
  let w := Sample.world Sample.evening Sample.settings None Sample.filled_buy in
  exists msg,
    sample_getAccountInfo w Sample.account_found "u2" Sample.empty
    = (Throw (Js.Error msg), Sample.empty)
    /\ error_kind (Js.Error msg) = Some ConfigurationError.
Proof.
  intros w.
  apply (getAccountInfo_not_configured Sample.hmac_sha256_hex w Sample.account_found
           "u2" Sample.empty).
  intros userSettings Hq. discriminate Hq.
Defined.

(** The account with auto-trading off reads its balances. *)
Lemma getAccountInfo_passes_account_on_witness :
  let w := Sample.world Sample.evening Sample.settings_trading_off None Sample.filled_buy in
  let qs := "timestamp=1700000000000"%string in
  sample_getAccountInfo w Sample.account_found "u1" Sample.empty
  = (Return "{balances:[]}"%string,
     mkState []
       [mkCall "GET"
          (account_url (qs ++ "&signature=" ++ Sample.hmac_sha256_hex "secret" qs)%string)
          (Some "api-key"%string) None]
       []).
Proof.
  intros w qs.
  apply (getAccountInfo_passes_account_on Sample.hmac_sha256_hex w Sample.account_found
           "u1" Sample.empty Sample.settings_trading_off "secret"
           (mkAccountResponse 200 (Some "{balances:[]}"%string)) "{balances:[]}");
    first [reflexivity | discriminate].
Defined.

(** The account endpoint answers 401. *)
Lemma getAccountInfo_rejected_witness :
  let w := Sample.world Sample.evening Sample.settings None Sample.filled_buy in
  sample_getAccountInfo w Sample.account_denied "u1" Sample.empty
  = (Throw (Js.Error "Binance API error: 401"),
     mkState [] [account_request Sample.hmac_sha256_hex w Sample.settings] [])
  /\ error_kind (Js.Error "Binance API error: 401") = Some ExchangeError.
Proof.
  intros w.
  apply (getAccountInfo_rejected Sample.hmac_sha256_hex w Sample.account_denied
           "u1" Sample.empty Sample.settings "secret" (mkAccountResponse 401 None));
    first [reflexivity | discriminate].
Defined.

(** A preflight request, with the environment incomplete. *)
Lemma serve_preflight_witness :
  let w := Sample.world Sample.evening Sample.settings None Sample.filled_buy in
  sample_serve w Sample.account_found Sample.env_without_key Sample.preflight
               (Sample.one_order Sample.evening)
  = (Return (mkReply 200 NoBody), Sample.one_order Sample.evening).
Proof.
  intros w.
  apply (serve_preflight Sample.parseFloat Sample.Number_toString Sample.hmac_sha256_hex
           w Sample.account_found Sample.env_without_key Sample.preflight
           (Sample.one_order Sample.evening)).
  reflexivity.
Defined.

(** A trade request without the service key in the environment, and a
    request with an action the function does not know. *)
Lemma serve_refuses_before_dispatch_witness :
  let w := Sample.world Sample.evening Sample.settings None Sample.filled_buy in
  let signal := Sample.signal BUY MARKET None None None in
  sample_serve w Sample.account_found Sample.env_without_key
               (Sample.post "execute_trade" signal) Sample.empty
  = (Return (mkReply 500 (ErrorBody "Supabase configuration missing")),
     mkState [] [] ["Auto trader error:"%string])
  /\ sample_serve w Sample.account_found Sample.env
                  (Sample.post "cancel_order" signal) Sample.empty
     = (Return (mkReply 500 (ErrorBody "Invalid action")),
        mkState [] [] ["Auto trader error:"%string]).
Proof.
  intros w signal. split.
  - apply (proj1 (serve_refuses_before_dispatch Sample.parseFloat
                    Sample.Number_toString Sample.hmac_sha256_hex w Sample.account_found
                    Sample.env_without_key (Sample.post "execute_trade" signal)
                    Sample.empty (mkBody (Some "execute_trade"%string) signal)
                    ltac:(discriminate) eq_refl)).
    reflexivity.
  - apply (proj2 (serve_refuses_before_dispatch Sample.parseFloat
                    Sample.Number_toString Sample.hmac_sha256_hex w Sample.account_found
                    Sample.env (Sample.post "cancel_order" signal)
                    Sample.empty (mkBody (Some "cancel_order"%string) signal)
                    ltac:(discriminate) eq_refl)).
    + reflexivity.
    + intros a Ha. inversion Ha. repeat split; discriminate.
Defined.

(** A trade request that the exchange rejects: the answer is 500 with
    the message of the error. *)
Lemma serve_execute_trade_witness :
  let w := Sample.world Sample.evening Sample.settings None Sample.rejected in
  let signal := Sample.signal BUY MARKET None None None in
  let req := Sample.post "execute_trade" signal in
  sample_serve w Sample.account_found Sample.env req Sample.empty
  = match sample_executeTrade w signal Sample.empty with
    | (Return r, st') => (Return (mkReply 200 (TradeBody r)), st')
    | (Throw e, st') =>
        (Return (mkReply 500 (ErrorBody (Js.message e))),
         mkState (ledger st') (exchange_calls st') (console st' ++ ["Auto trader error:"%string]))
    end
  /\ fst (sample_serve w Sample.account_found Sample.env req Sample.empty)
     = Return (mkReply 500 (ErrorBody
         "Binance API error: 400 {code:-2010,msg:insufficient balance}")).
Proof.
  intros w signal req. split; [|reflexivity].
  apply (serve_execute_trade Sample.parseFloat Sample.Number_toString
           Sample.hmac_sha256_hex w Sample.account_found Sample.env req Sample.empty
           (mkBody (Some "execute_trade"%string) signal));
    first [reflexivity | discriminate].
Defined.

(** A trade request for the account with auto-trading off. *)
Lemma serve_trading_disabled_witness :
  let w := Sample.world Sample.evening Sample.settings_trading_off None Sample.filled_buy in
  let signal := Sample.signal BUY MARKET None None None in
  exists log,
    sample_serve w Sample.account_found Sample.env
                 (Sample.post "execute_trade" signal) Sample.empty
    = (Return (mkReply 500 (ErrorBody "Auto trading is disabled for this user")),
       mkState [] [] log).
Proof.
  intros w signal.
  apply (serve_trading_disabled Sample.parseFloat Sample.Number_toString
           Sample.hmac_sha256_hex w Sample.account_found Sample.env
           (Sample.post "execute_trade" signal) Sample.empty
           (mkBody (Some "execute_trade"%string) signal) Sample.settings_trading_off);
    first [reflexivity | discriminate].
Defined.

(** One order at noon of the day and one in its last millisecond: the
    query returns the first only. *)
Lemma daily_count_window_witness :
  let w := Sample.world Sample.evening Sample.settings None Sample.filled_buy in
  let st := mkState [Sample.stored "p1" 1699963200000; Sample.stored "p2" Sample.last_ms]
                    [] [] in
  (select_today_trades w "u1" (utc_day (now w)) st
   = (Return (mkQuery (Some (map id (todays_orders w "u1" st))) None), st)
   /\ forall r,
        In r (todays_orders w "u1" st)
        <-> In r (ledger st)
            /\ Order.user_id (row r) = "u1"%string
            /\ utc_day (created_at r) = utc_day (now w)
            /\ created_at r <> T23_59_59_999Z (utc_day (now w)))
  /\ map id (todays_orders w "u1" st) = ["p1"%string].
Proof.
  intros w st. split; [|reflexivity].
  exact (daily_count_window w "u1" st eq_refl).
Defined.

(** A check request for the account with auto TP/SL off. *)
Lemma serve_check_not_enabled_witness :
  let w := Sample.world Sample.evening Sample.settings_tpsl_off None Sample.filled_buy in
  let signal := Sample.signal BUY MARKET None None None in
  let st := Sample.one_order Sample.evening in
  sample_serve w Sample.account_found Sample.env (Sample.post "check_tp_sl" signal) st
  = (Return (mkReply 200 (CheckBody (Message "Auto TP/SL not enabled"))), st).
Proof.
  intros w signal st.
  apply (serve_check_not_enabled Sample.parseFloat Sample.Number_toString
           Sample.hmac_sha256_hex w Sample.account_found Sample.env
           (Sample.post "check_tp_sl" signal) st
           (mkBody (Some "check_tp_sl"%string) signal) Sample.settings_tpsl_off);
    first [reflexivity | discriminate].
Defined.
